(** * Structural-node pools and containers of [include/struct.h]

    A shallow embedding of the per-type pool allocator [SNodeAllocator], its
    registry [Managers] and the node containers [layout_root], [dense],
    [hashed], [pointer], [dynamic] and [indirect], followed by the properties
    of the specification stated over it.

    Conventions of the embedding:
    - [size_t] values and addresses are [N]; [int] values are [Z].
      Unsigned arithmetic wraps at [2^64] ([wrap64]); pointer arithmetic is
      the exact sum of base and scaled offset ([ptr_add]), [nullptr] is [0].
    - The memory a pool pointer refers to is carried next to the pointer, as a
      total map from element index to element; indices at or beyond
      [pool_size] stand for whatever memory lies behind the pool. The three
      maps of an allocator are apart only below [pool_size]: behind a pool
      may lie another pool, so that a statement that a store into one pool
      leaves a cell of another as it was is made for stores and cells below
      [pool_size] only.
    - A C array [int a[k]] is a map from index to element, of which only the
      indices below [k] belong to the array.
    - A call either returns, or stops the process in a failed [TC_ASSERT], or
      dereferences a null pointer, a member call through a null pointer
      included: see [outcome]. *)

From Stdlib Require Import ZArith NArith List Lia.
From stdpp Require Import base tactics option functions numbers list gmap.

Local Open Scope N_scope.

(** ** Outcomes of a call *)

Inductive outcome (A : Type) : Type :=
| Ret (x : A)      (* the call returns x *)
| Abort            (* a TC_ASSERT failed: the process halts *)
| Fault.           (* a null pointer was dereferenced: undefined behaviour *)
Arguments Ret {A} x.
Arguments Abort {A}.
Arguments Fault {A}.

#[global] Instance outcome_ret : MRet outcome := @Ret.
#[global] Instance outcome_bind : MBind outcome := λ A B f m,
  match m with
  | Ret x => f x
  | Abort => Abort
  | Fault => Fault
  end.

(** Modelled from the spec: the macro [TC_ASSERT] of common.h, which is not
    part of the sources at hand.  Section 7 of the specification: an
    invariant violation is detected by assertion, is fatal and terminates the
    process. *)
Definition TC_ASSERT (cond : bool) : outcome unit :=
  if cond then Ret () else Abort.

(** ** Machine arithmetic *)

Definition wrap64 (x : N) : N := x mod 2 ^ 64.

(** [int] is 32 bits wide, two's complement. *)
Definition wrap_int (x : Z) : Z := ((x + 2 ^ 31) mod 2 ^ 32 - 2 ^ 31)%Z.

(** Modelled from the spec: [atomic_add] of arithmetics.h, which is not part
    of the sources at hand.  Section 4.2 of the specification: a single
    atomic fetch-and-add.  The result is the value read and the value
    stored. *)
Definition atomic_add (dest inc : N) : N * N := (dest, wrap64 (dest + inc)).

(** [p + k] for a pointer [p] to elements of [sz] bytes. The source forms
    such a sum below [p] only with an out-of-range index of an inline array;
    the sum is cut off at 0 there. *)
Definition ptr_add (p : N) (k : Z) (sz : N) : N :=
  Z.to_N (Z.of_N p + k * Z.of_N sz).

(** ** Build configuration

    The constants and preprocessor symbols the header depends on. *)
Class Build := {
  max_num_indices : nat;   (* common.h *)
  TLANG_HOST : bool;       (* defined(TLANG_HOST) *)
  CUDA_ARCH : bool;        (* defined(__CUDA_ARCH__) *)
}.

(** ** Data model *)

(** [using PhysicalIndexGroup = int[max_num_indices]] *)
Abbreviation PhysicalIndexGroup := (nat → Z).

Record SNodeMeta := {
  indices : PhysicalIndexGroup;   (* int indices[max_num_indices] *)
  ptr : N;                        (* void *ptr *)
  active : Z;                     (* int active *)
}.

Definition set_indices (f : PhysicalIndexGroup → PhysicalIndexGroup) (m : SNodeMeta) : SNodeMeta :=
  {| indices := f (indices m); ptr := ptr m; active := active m |}.
Definition set_ptr (p : N) (m : SNodeMeta) : SNodeMeta :=
  {| indices := indices m; ptr := p; active := active m |}.
Definition set_active (v : Z) (m : SNodeMeta) : SNodeMeta :=
  {| indices := indices m; ptr := ptr m; active := v |}.

(** The template argument [T] of [SNodeAllocator<T>], reduced to what the
    allocator reads from it. [static_assert(sizeof(data_type) % 4 == 0)]
    makes the size of a child a positive number of 4-byte words. *)
Record NodeType := {
  has_null : bool;              (* T::has_null *)
  SNodeID : Z;                  (* SNodeID<T>::value *)
  data_words : positive;        (* sizeof(T::child_type) / 4 *)
  data_type_ctor : N → option Z;
    (* data_type(): the int stored in word j of the new object, where the
       constructor initialises that word *)
}.

Definition sizeof_data_type (T : NodeType) : N := 4 * Npos (data_words T).

(** [static constexpr std::size_t pool_size = (1LL << 33) / sizeof(data_type)] *)
Definition pool_size (T : NodeType) : N := N.shiftl 1 33 / sizeof_data_type T.

Record AllocatorStat := {
  snode_id : Z;
  stat_pool_size : N;
  num_resident_blocks : N;
  num_recycled_blocks : N;
}.

Record SNodeAllocator := {
  resident_pool : N;              (* SNodeMeta *resident_pool *)
  recycle_pool : N;               (* SNodeMeta *recycle_pool *)
  data_pool : N;                  (* data_type *data_pool *)
  resident_tail : N;              (* size_t resident_tail *)
  recycle_tail : N;               (* size_t recycle_tail *)
  resident_mem : N → SNodeMeta;   (* resident_pool[k] *)
  recycle_mem : N → SNodeMeta;    (* recycle_pool[k] *)
  data_mem : N → Z;               (* ((int * )data_pool)[w] *)
}.

Definition set_resident_tail (v : N) (a : SNodeAllocator) : SNodeAllocator :=
  {| resident_pool := resident_pool a; recycle_pool := recycle_pool a;
     data_pool := data_pool a; resident_tail := v;
     recycle_tail := recycle_tail a; resident_mem := resident_mem a;
     recycle_mem := recycle_mem a; data_mem := data_mem a |}.
Definition set_recycle_tail (v : N) (a : SNodeAllocator) : SNodeAllocator :=
  {| resident_pool := resident_pool a; recycle_pool := recycle_pool a;
     data_pool := data_pool a; resident_tail := resident_tail a;
     recycle_tail := v; resident_mem := resident_mem a;
     recycle_mem := recycle_mem a; data_mem := data_mem a |}.
Definition set_resident_mem (m : N → SNodeMeta) (a : SNodeAllocator) : SNodeAllocator :=
  {| resident_pool := resident_pool a; recycle_pool := recycle_pool a;
     data_pool := data_pool a; resident_tail := resident_tail a;
     recycle_tail := recycle_tail a; resident_mem := m;
     recycle_mem := recycle_mem a; data_mem := data_mem a |}.
Definition set_recycle_mem (m : N → SNodeMeta) (a : SNodeAllocator) : SNodeAllocator :=
  {| resident_pool := resident_pool a; recycle_pool := recycle_pool a;
     data_pool := data_pool a; resident_tail := resident_tail a;
     recycle_tail := recycle_tail a; resident_mem := resident_mem a;
     recycle_mem := m; data_mem := data_mem a |}.
Definition set_data_mem (m : N → Z) (a : SNodeAllocator) : SNodeAllocator :=
  {| resident_pool := resident_pool a; recycle_pool := recycle_pool a;
     data_pool := data_pool a; resident_tail := resident_tail a;
     recycle_tail := recycle_tail a; resident_mem := resident_mem a;
     recycle_mem := recycle_mem a; data_mem := m |}.

(** ** The pool allocator *)

Section Allocator.
Context `{Build}.
Variable T : NodeType.

(** The constructor. [allocate] belongs to the raw allocation layer; its
    three results and the contents of the memory it hands out are the
    arguments [p_data], [p_resident], [p_recycle] and [m_resident],
    [m_recycle], [m_data]. *)
Definition SNodeAllocator_ctor (p_data p_resident p_recycle : N)
    (m_resident m_recycle : N → SNodeMeta) (m_data : N → Z) : SNodeAllocator :=
  {| data_pool := if has_null T then p_data else 0;
     resident_pool := p_resident;
     recycle_pool := p_recycle;
     resident_tail := 0;
     recycle_tail := 0;
     resident_mem := m_resident;
     recycle_mem := m_recycle;
     data_mem := m_data |}.

Definition reset_meta (a : SNodeAllocator) : SNodeAllocator :=
  set_recycle_tail 0 (set_resident_tail 0 a).

(** [new (data_pool + id) data_type()]: the words of slot [id] that the
    constructor of the child initialises. *)
Definition construct_at (id : N) (mem : N → Z) : N → Z :=
  λ w,
    let base := id * Npos (data_words T) in
    if (base <=? w) && (w <? base + Npos (data_words T))
    then default (mem w) (data_type_ctor T (w - base))
    else mem w.

(** [for (int i = 0; i < max_num_indices; i++) meta.indices[i] = index[i];] *)
Definition copy_indices (index : PhysicalIndexGroup) (meta : SNodeMeta) : SNodeMeta :=
  foldl (λ m i, set_indices <[i := index i]> m) meta (seq 0 max_num_indices).

(** [this] is [None] for a null allocator pointer. The member call through
    a null pointer is itself the null dereference, whatever the body then
    does, so that [TC_ASSERT(this != nullptr)] holds whenever it is
    reached. *)
Definition allocate_node (this : option SNodeAllocator)
    (index : PhysicalIndexGroup) : outcome (SNodeAllocator * N) :=
  a ← from_option Ret Fault this;
  TC_ASSERT (bool_decide (is_Some this));;
  TC_ASSERT (negb (data_pool a =? 0));;
  TC_ASSERT (negb (resident_pool a =? 0));;
  let '(id, tail) := atomic_add (resident_tail a) 1 in
  let a := set_resident_tail tail a in
  let meta := resident_mem a id in
  let meta := set_active 1 meta in
  let meta := set_ptr (ptr_add (data_pool a) (Z.of_N id) (sizeof_data_type T)) meta in
  let meta := copy_indices index meta in
  let a := set_resident_mem (<[id := meta]> (resident_mem a)) a in
  let a := set_data_mem (construct_at id (data_mem a)) a in
  Ret (a, ptr_add (data_pool a) (Z.of_N id) (sizeof_data_type T)).

Definition get_stat (a : SNodeAllocator) : AllocatorStat :=
  {| snode_id := SNodeID T;
     stat_pool_size := pool_size T;
     num_recycled_blocks := recycle_tail a;
     num_resident_blocks := resident_tail a |}.

(** The kernel [recycle_all_gpu], run by thread [t] of block [b]. *)
Definition recycle_all_gpu (a : SNodeAllocator) (b t : N) : SNodeAllocator :=
  if negb (active (resident_mem a b) =? 0)%Z then a   (* still active, do nothing *)
  else
    (* ptr = (int * )(&allocator->data_pool[b]); ptr[b] = 0; *)
    let a := set_data_mem (<[b * Npos (data_words T) + b := 0%Z]> (data_mem a)) a in
    if t =? 0 then
      let '(k, tail) := atomic_add (recycle_tail a) 1 in
      let a := set_recycle_tail tail a in
      set_recycle_mem (<[k := resident_mem a b]> (recycle_mem a)) a
    else a.

(** [kernel<<<grid, block>>>(a)]: every thread of every block runs the
    kernel once; the blocks are taken in the order [sched], the threads of
    a block in ascending order. *)
Definition launch_in (sched : list N) (block : N)
    (kernel : SNodeAllocator → N → N → SNodeAllocator)
    (a : SNodeAllocator) : SNodeAllocator :=
  foldl (λ a b, foldl (λ a t, kernel a b t) a (N.of_nat <$> seq 0 (N.to_nat block)))
        a sched.

Definition launch (grid block : N) :=
  launch_in (N.of_nat <$> seq 0 (N.to_nat grid)) block.

(** [SNodeAllocator<T>::clear], as built with [TLANG_GPU]. *)
Definition clear (a : SNodeAllocator) : SNodeAllocator :=
  let a := launch (resident_tail a) (sizeof_data_type T / 4) recycle_all_gpu a in
  set_resident_tail 0 a.

End Allocator.

(** ** The registry *)

(** [SNodeManager<T>]: [allocator] is [None] for a null pointer.  The
    allocator lives in memory that only its manager points to, so it is
    carried by value. *)
Record SNodeManager := {
  allocator : option SNodeAllocator;
}.

Definition get_allocator (m : SNodeManager) : option SNodeAllocator := allocator m.

(** [Managers]: [void *managers[max_num_snodes]], an entry being absent for a
    null pointer. *)
Record Managers := {
  managers : gmap Z SNodeManager;
}.

Section Registry.
Context `{Build}.
Variable T : NodeType.

(** [Managers::get_manager<T>] *)
Definition get_manager (ms : Managers) : option SNodeManager :=
  managers ms !! SNodeID T.

(** [Managers::get<T>()->get_allocator()] *)
Definition Managers_get_allocator (ms : Managers) : outcome (option SNodeAllocator) :=
  m ← from_option Ret Fault (get_manager ms);
  Ret (get_allocator m).

(** [Managers::get<T>()->get_allocator()->allocate_node(index)]; the
    allocator changed by the call stays where the manager points to. *)
Definition Managers_allocate_node (ms : Managers) (index : PhysicalIndexGroup)
    : outcome (Managers * N) :=
  this ← Managers_get_allocator ms;
  '(a, p) ← allocate_node T this index;
  Ret ({| managers := <[SNodeID T := {| allocator := Some a |}]> (managers ms) |}, p).
End Registry.

(** ** The containers *)

(** [layout_root<child_type>]: [children] is the only member, so its address
    is the address of the object. *)
Record layout_root := {
  root_this : N;
}.

Definition root_look_up (r : layout_root) (i : Z) : N := root_this r.
Definition root_get_n (r : layout_root) : Z := 1.
Definition root_get_max_n : Z := 1.
Definition root_activate (r : layout_root) (i : Z) (index : PhysicalIndexGroup) : layout_root := r.
Definition root_has_null : bool := true.

(** [dense<child_type, n>] *)
Record dense := {
  dense_this : N;
  dense_child_size : N;   (* sizeof(child_type) *)
  dense_n : Z;            (* the template argument n *)
}.

Definition dense_look_up (d : dense) (i : Z) : N :=
  ptr_add (dense_this d) i (dense_child_size d).
Definition dense_get_n (d : dense) : Z := dense_n d.
Definition dense_get_max_n (d : dense) : Z := dense_n d.
Definition dense_activate (d : dense) (i : Z) (index : PhysicalIndexGroup) : dense := d.
Definition dense_has_null : bool := false.

(** [hashed<child_type>]: the mutex [mut] is never taken and is left out. *)
Record hashed := {
  hashed_data : gmap Z N;   (* std::unordered_map<int, child_type *> data *)
}.

Definition hashed_ctor : hashed := {| hashed_data := ∅ |}.

Definition hashed_look_up (h : hashed) (i : Z) : N :=
  match hashed_data h !! i with
  | None => 0          (* data.find(i) == data.end() *)
  | Some p => p        (* data[i] *)
  end.

Definition hashed_get_n (h : hashed) : Z := wrap_int (Z.of_nat (size (hashed_data h))).
Definition hashed_has_null : bool := true.

(** [pointer<child_type>] *)
Record pointer := {
  pointer_data : N;   (* child_type *data *)
  lock : Z;           (* int lock *)
}.

Definition pointer_look_up (p : pointer) (i : Z) : N := pointer_data p.
Definition pointer_get_n (p : pointer) : Z := 1.
Definition pointer_get_max_n : Z := 1.
Definition pointer_has_null : bool := true.

(** [atomicCAS(&lock, compare, val)] of the CUDA runtime: the old value and
    the value left in [lock]. *)
Definition atomicCAS (l compare val : Z) : Z * Z :=
  (l, if (l =? compare)%Z then val else l).

(** [while (!atomicCAS(&lock, 0, 1));] run by one thread on its own: the
    value left in [lock], or [None] when [fuel] iterations do not leave the
    loop. *)
Fixpoint spin (fuel : nat) (l : Z) : option Z :=
  match fuel with
  | O => None
  | S fuel =>
      let '(old, l) := atomicCAS l 0 1 in
      if (old =? 0)%Z then spin fuel l else Some l
  end.

(** [dynamic<child_type, max_n>] *)
Record dynamic := {
  dynamic_this : N;
  dynamic_child_size : N;   (* sizeof(child_type) *)
  dynamic_max_n : Z;        (* the template argument max_n *)
  dynamic_n : Z;            (* int n *)
}.

Definition dynamic_ctor (this sz : N) (max_n : Z) : dynamic :=
  {| dynamic_this := this; dynamic_child_size := sz; dynamic_max_n := max_n;
     dynamic_n := 0 |}.

Definition dynamic_set_n (v : Z) (d : dynamic) : dynamic :=
  {| dynamic_this := dynamic_this d; dynamic_child_size := dynamic_child_size d;
     dynamic_max_n := dynamic_max_n d; dynamic_n := v |}.

Definition dynamic_clear (d : dynamic) : dynamic := dynamic_set_n 0 d.
Definition dynamic_activate (d : dynamic) (i : Z) (index : PhysicalIndexGroup) : dynamic := d.
Definition dynamic_get_n (d : dynamic) : Z := dynamic_n d.
Definition dynamic_get_max_n (d : dynamic) : Z := dynamic_max_n d.
Definition dynamic_has_null : bool := false.

(** [indirect<max_n>] *)
Record indirect := {
  indirect_this : N;
  indirect_max_n : Z;   (* the template argument max_n *)
  indirect_n : Z;       (* std::atomic<int> n *)
}.

Definition indirect_ctor (this : N) (max_n : Z) : indirect :=
  {| indirect_this := this; indirect_max_n := max_n; indirect_n := 0 |}.

Definition indirect_set_n (v : Z) (d : indirect) : indirect :=
  {| indirect_this := indirect_this d; indirect_max_n := indirect_max_n d;
     indirect_n := v |}.

Definition indirect_get_n (d : indirect) : Z := indirect_n d.
Definition indirect_get_max_n (d : indirect) : Z := indirect_max_n d.
Definition indirect_clear (d : indirect) : indirect := indirect_set_n 0 d.
Definition indirect_has_null : bool := false.

Section Containers.
Context `{Build}.

(** [hashed::activate], [T] being the node type [hashed<child_type>]. *)
Definition hashed_activate (T : NodeType) (ms : Managers) (h : hashed) (i : Z)
    (index : PhysicalIndexGroup) : outcome (Managers * hashed) :=
  match hashed_data h !! i with
  | None =>
      '(ms, p) ← Managers_allocate_node T ms index;
      Ret (ms, {| hashed_data := <[i := p]> (hashed_data h) |})
  | Some _ => Ret (ms, h)
  end.

(** The body both builds of [pointer::activate] share. *)
Definition pointer_activate_body (T : NodeType) (ms : Managers) (p : pointer)
    (index : PhysicalIndexGroup) : outcome (Managers * pointer) :=
  if pointer_data p =? 0 then
    '(ms, d) ← Managers_allocate_node T ms index;
    Ret (ms, {| pointer_data := d; lock := lock p |})
  else Ret (ms, p).

(** One iteration of [for (int k = 0; k < 32; k++)] in the device build of
    [pointer::activate]: lane [warp_id] spins on [lock], runs the body and
    stores 0 in [lock]; the other iterations do nothing. [None] is a spin
    that does not end within [fuel] iterations; a call that has stopped the
    process runs no further iteration. *)
Definition pointer_activate_turn (fuel : nat) (warp_id : Z) (T : NodeType)
    (index : PhysicalIndexGroup) (st : option (outcome (Managers * pointer)))
    (k : nat) : option (outcome (Managers * pointer)) :=
  st ← st;
  match st with
  | Ret (ms, p) =>
      if (Z.of_nat k =? warp_id)%Z then
        l ← spin fuel (lock p);
        let p := {| pointer_data := pointer_data p; lock := l |} in
        Some ('(ms, p) ← pointer_activate_body T ms p index;
              Ret (ms, {| pointer_data := pointer_data p; lock := 0 |}))
      else Some (Ret (ms, p))
  | o => Some o
  end.

(** [pointer::activate], [T] being the node type [pointer<child_type>] and
    [threadIdx_x] the index of the calling thread. *)
Definition pointer_activate (fuel : nat) (threadIdx_x : Z) (T : NodeType)
    (ms : Managers) (p : pointer) (i : Z) (index : PhysicalIndexGroup)
    : option (outcome (Managers * pointer)) :=
  if CUDA_ARCH then
    let warp_id := (threadIdx_x `mod` 32)%Z in
    foldl (pointer_activate_turn fuel warp_id T index) (Some (Ret (ms, p))) (seq 0 32)
  else Some (pointer_activate_body T ms p index).

(** [dynamic::look_up]: the container it leaves and the pointer it
    returns. *)
Definition dynamic_look_up (d : dynamic) (i : Z) : dynamic * N :=
  let d := if TLANG_HOST
           then dynamic_set_n (Z.max (dynamic_n d) (wrap_int (i + 1))) d
           else d in
  (d, ptr_add (dynamic_this d) i (dynamic_child_size d)).

(** [indirect::look_up]; an element of [data] is an [int]. *)
Definition indirect_look_up (d : indirect) (i : Z) : indirect * N :=
  let d := if TLANG_HOST
           then indirect_set_n (Z.max (indirect_n d) (wrap_int (i + 1))) d
           else d in
  (d, ptr_add (indirect_this d) i 4).
End Containers.

(** ** The containers behind one interface

    Generated code reaches a container through the member names [look_up],
    [activate], [get_n], [get_max_n] and [has_null] of whichever of the six
    structs it was instantiated with. A use of a name the struct does not
    declare does not compile: [NoMember]. *)

Inductive variant :=
| root_v | dense_v | pointer_v | hashed_v | dynamic_v | indirect_v.

Inductive container :=
| Root (r : layout_root)
| Dense (d : dense)
| Pointer (T : NodeType) (p : pointer)
| Hashed (T : NodeType) (h : hashed)
| Dynamic (d : dynamic)
| Indirect (d : indirect).

Definition kind (c : container) : variant :=
  match c with
  | Root _ => root_v
  | Dense _ => dense_v
  | Pointer _ _ => pointer_v
  | Hashed _ _ => hashed_v
  | Dynamic _ => dynamic_v
  | Indirect _ => indirect_v
  end.

Inductive member_call (A : Type) : Type :=
| NoMember
| Called (x : A).
Arguments NoMember {A}.
Arguments Called {A} x.

Section Interface.
Context `{Build}.

Definition look_up (c : container) (i : Z) : member_call (container * N) :=
  match c with
  | Root r => Called (c, root_look_up r i)
  | Dense d => Called (c, dense_look_up d i)
  | Pointer T p => Called (c, pointer_look_up p i)
  | Hashed T h => Called (c, hashed_look_up h i)
  | Dynamic d => let '(d, p) := dynamic_look_up d i in Called (Dynamic d, p)
  | Indirect d => let '(d, p) := indirect_look_up d i in Called (Indirect d, p)
  end.

Definition activate (fuel : nat) (threadIdx_x : Z) (ms : Managers) (c : container)
    (i : Z) (index : PhysicalIndexGroup)
    : member_call (option (outcome (Managers * container))) :=
  match c with
  | Root r => Called (Some (Ret (ms, Root (root_activate r i index))))
  | Dense d => Called (Some (Ret (ms, Dense (dense_activate d i index))))
  | Pointer T p =>
      Called (o ← pointer_activate fuel threadIdx_x T ms p i index;
              Some ('(ms, p) ← o; Ret (ms, Pointer T p)))
  | Hashed T h =>
      Called (Some ('(ms, h) ← hashed_activate T ms h i index; Ret (ms, Hashed T h)))
  | Dynamic d => Called (Some (Ret (ms, Dynamic (dynamic_activate d i index))))
  | Indirect _ => NoMember
  end.

Definition get_n (c : container) : member_call Z :=
  match c with
  | Root r => Called (root_get_n r)
  | Dense d => Called (dense_get_n d)
  | Pointer _ p => Called (pointer_get_n p)
  | Hashed _ h => Called (hashed_get_n h)
  | Dynamic d => Called (dynamic_get_n d)
  | Indirect d => Called (indirect_get_n d)
  end.

Definition get_max_n (c : container) : member_call Z :=
  match c with
  | Root _ => Called root_get_max_n
  | Dense d => Called (dense_get_max_n d)
  | Pointer _ _ => Called pointer_get_max_n
  | Hashed _ _ => NoMember
  | Dynamic d => Called (dynamic_get_max_n d)
  | Indirect d => Called (indirect_get_max_n d)
  end.

Definition container_has_null (c : container) : member_call bool :=
  match c with
  | Root _ => Called root_has_null
  | Dense _ => Called dense_has_null
  | Pointer _ _ => Called pointer_has_null
  | Hashed _ _ => Called hashed_has_null
  | Dynamic _ => Called dynamic_has_null
  | Indirect _ => Called indirect_has_null
  end.

(** The contract of section 4.3 of the specification, for one container:
    every one of the five names can be called. *)
Definition declared {A} (r : member_call A) : bool :=
  match r with NoMember => false | Called _ => true end.

Definition full_contract (c : container) : bool :=
  declared (look_up c 0)
  && declared (activate 2 0 {| managers := ∅ |} c 0 (λ _, 0%Z))
  && declared (get_n c)
  && declared (get_max_n c)
  && declared (container_has_null c).
End Interface.

(** ** Concrete builds and node types used in the examples *)

Definition host_build : Build :=
  {| max_num_indices := 4; TLANG_HOST := true; CUDA_ARCH := false |}.
Definition device_build : Build :=
  {| max_num_indices := 4; TLANG_HOST := false; CUDA_ARCH := true |}.

(** A node type with children of two words, which the constructor of the
    child fills with 7. *)
Definition T2 : NodeType :=
  {| has_null := true; SNodeID := 3; data_words := 2;
     data_type_ctor := λ _, Some 7%Z |}.

(** A node type whose children are never absent, such as [dense]. *)
Definition Tdense : NodeType :=
  {| has_null := false; SNodeID := 1; data_words := 1;
     data_type_ctor := λ _, None |}.

Definition zero_meta : SNodeMeta := {| indices := λ _, 0%Z; ptr := 0; active := 0 |}.

(** A pool for [T2] in zeroed memory, its three regions at 4096, 8192 and
    12288. *)
Definition fresh2 : SNodeAllocator :=
  SNodeAllocator_ctor T2 4096 8192 12288 (λ _, zero_meta) (λ _, zero_meta) (λ _, 0%Z).

Definition coords (x : Z) : PhysicalIndexGroup :=
  λ i, match i with O => x | _ => 0%Z end.

(** [allocate_node] called once for each tuple of [l], in order: the
    allocator it leaves and the pointers returned. *)
Section Runs.
Context `{Build}.
Variable T : NodeType.

Fixpoint allocate_nodes (a : SNodeAllocator) (l : list PhysicalIndexGroup)
    : outcome (SNodeAllocator * list N) :=
  match l with
  | [] => Ret (a, [])
  | index :: l =>
      '(a, p) ← allocate_node T (Some a) index;
      '(a, ps) ← allocate_nodes a l;
      Ret (a, p :: ps)
  end.
End Runs.

(** ** Runs of the allocator *)

Inductive pool_op :=
| op_allocate_node (index : PhysicalIndexGroup)
| op_clear
| op_reset_meta.

Section PoolRuns.
Context `{Build}.
Variable T : NodeType.

Definition run_op (op : pool_op) (a : SNodeAllocator) : outcome SNodeAllocator :=
  match op with
  | op_allocate_node index => '(a, _) ← allocate_node T (Some a) index; Ret a
  | op_clear => Ret (clear T a)
  | op_reset_meta => Ret (reset_meta a)
  end.

(** The states of an allocator constructed with [allocate] returning
    [p_data], [p_resident] and [p_recycle]: the one the constructor leaves,
    and those reached from it by the operations of the allocator and by
    stores of other code into the memory of the pools. *)
Inductive reachable (p_data p_resident p_recycle : N) : SNodeAllocator → Prop :=
| reach_ctor m_resident m_recycle m_data :
    reachable p_data p_resident p_recycle
      (SNodeAllocator_ctor T p_data p_resident p_recycle m_resident m_recycle m_data)
| reach_op a op a' :
    reachable p_data p_resident p_recycle a →
    run_op op a = Ret a' →
    reachable p_data p_resident p_recycle a'
| reach_store a m_resident m_recycle m_data :
    reachable p_data p_resident p_recycle a →
    reachable p_data p_resident p_recycle
      (set_data_mem m_data (set_recycle_mem m_recycle (set_resident_mem m_resident a))).
End PoolRuns.

(** ** The invariant of metadata records *)





(** ** A pool of four slots, all of them deactivated

    Four calls of [allocate_node] on [fresh2] with the coordinates 0, 1, 2
    and 3, after which the code that owns the nodes clears [active] in the
    four records. *)
Definition four_resident : SNodeAllocator :=
  match allocate_nodes (H := host_build) T2 fresh2 [coords 0; coords 1; coords 2; coords 3] with
  | Ret (a, _) => a
  | _ => fresh2
  end.

Definition mark_inactive (k : N) (a : SNodeAllocator) : SNodeAllocator :=
  set_resident_mem (alter (set_active 0) k (resident_mem a)) a.

Definition four_inactive : SNodeAllocator :=
  foldr mark_inactive four_resident [0; 1; 2; 3].

(** A registry whose entry for [T2] holds the pool [fresh2], and a pool at
    the capacity of [T2]. *)
Definition registry2 : Managers :=
  {| managers := {[ SNodeID T2 := {| allocator := Some fresh2 |} ]} |}.

Definition full2 : SNodeAllocator := set_resident_tail (pool_size T2) fresh2.

(** ** Appending to a [dynamic] and the blocks of a sweep *)

(** Modelled from the spec: [atomic_add] of arithmetics.h on an [int], the
    same fetch-and-add as [atomic_add] above at the width of [int]. *)
Definition atomic_add_int (dest inc : Z) : Z * Z := (dest, wrap_int (dest + inc)).

(** [dynamic::append]: [data[atomic_add(&n, 1)] = t]. The array [data] of
    the container is carried next to it, as a map from index to child. This
    is the store for an index within the array: in the struct [n] lies behind
    [data[max_n - 1]], and a store at index [max_n] or beyond falls on [n] and
    on what follows the container, which the two separate maps do not
    show. *)
Definition dynamic_append {A} (d : dynamic) (data : Z → A) (t : A) : dynamic * (Z → A) :=
  let '(k, n) := atomic_add_int (dynamic_n d) 1 in
  (dynamic_set_n n d, <[k := t]> data).

(** [append] called once for each element of [ts], in order. *)
Definition dynamic_appends {A} (d : dynamic) (data : Z → A) (ts : list A)
    : dynamic * (Z → A) :=
  foldl (λ st t, dynamic_append st.1 st.2 t) (d, data) ts.

(** The block indices of the grid that [clear] launches. *)
Definition resident_blocks (a : SNodeAllocator) : list N :=
  N.of_nat <$> seq 0 (N.to_nat (resident_tail a)).

(** The blocks of [sched] whose record is not active. *)
Definition inactive_blocks (a : SNodeAllocator) (sched : list N) : list N :=
  filter (λ b, active (resident_mem a b) = 0%Z) sched.

(** * Properties *)

(** ** The model on small inputs *)

Example allocate_four_slots :
  match allocate_nodes (H := host_build) T2 fresh2
          [coords 0; coords 1; coords 2; coords 3] with
  | Ret (a, ps) =>
      ps = [4096; 4104; 4112; 4120]
      ∧ num_resident_blocks (get_stat T2 a) = 4
      ∧ stat_pool_size (get_stat T2 a) = 1073741824
  | _ => False
  end.
Proof. vm_compute. done. Qed.

Example allocate_node_null_pools :
  allocate_node (H := host_build) T2 None (coords 0) = Fault
  ∧ allocate_node (H := host_build) T2 (Some (set_resident_tail 7 fresh2)) (coords 0)
    ≠ Abort.
Proof. split; [reflexivity|discriminate]. Qed.

Example spin_iterations :
  spin 1 0 = None ∧ spin 2 0 = Some 1%Z ∧ spin 1 1 = Some 1%Z.
Proof. by split_and!. Qed.

Example hashed_activate_unregistered :
  hashed_activate (H := host_build) T2 {| managers := ∅ |} hashed_ctor 5 (coords 5)
  = Fault.
Proof. reflexivity. Qed.

Example dynamic_look_up_host :
  dynamic_look_up (H := host_build) (dynamic_ctor 64 8 16) 2
  = ({| dynamic_this := 64; dynamic_child_size := 8; dynamic_max_n := 16;
        dynamic_n := 3 |}, 80).
Proof. reflexivity. Qed.

(** ** Arithmetic and memory lemmas *)

Lemma ptr_add_of_N (p k sz : N) : ptr_add p (Z.of_N k) sz = p + k * sz.
Proof.
  unfold ptr_add. rewrite <- N2Z.inj_mul, <- N2Z.inj_add. apply N2Z.id.
Qed.

Lemma wrap64_small (x : N) : x < 2 ^ 64 → wrap64 x = x.
Proof. intros Hx. unfold wrap64. by apply N.mod_small. Qed.


Lemma sizeof_data_type_pos (T : NodeType) : 0 < sizeof_data_type T.
Proof. unfold sizeof_data_type. lia. Qed.

Lemma sizeof_data_type_words (T : NodeType) :
  sizeof_data_type T / 4 = Npos (data_words T).
Proof.
  unfold sizeof_data_type. rewrite N.mul_comm. by apply N.div_mul.
Qed.

Lemma pool_size_bound (T : NodeType) : pool_size T ≤ 2 ^ 31.
Proof.
  unfold pool_size, sizeof_data_type.
  change (N.shiftl 1 33) with (2 ^ 33).
  trans (2 ^ 33 / 4); [|done].
  apply N.div_le_compat_l. lia.
Qed.

Lemma construct_at_inside (T : NodeType) (id j : N) (mem : N → Z) :
  j < Npos (data_words T) →
  construct_at T id mem (id * Npos (data_words T) + j)
  = default (mem (id * Npos (data_words T) + j)) (data_type_ctor T j).
Proof.
  intros Hj. unfold construct_at. cbv zeta.
  replace (id * Npos (data_words T) + j - id * Npos (data_words T)) with j by lia.
  destruct (N.leb_spec (id * Npos (data_words T)) (id * Npos (data_words T) + j)); [|lia].
  destruct (N.ltb_spec (id * Npos (data_words T) + j)
              (id * Npos (data_words T) + Npos (data_words T))); [done|lia].
Qed.

Lemma construct_at_outside (T : NodeType) (id w : N) (mem : N → Z) :
  w < id * Npos (data_words T) ∨ id * Npos (data_words T) + Npos (data_words T) ≤ w →
  construct_at T id mem w = mem w.
Proof.
  intros Hw. unfold construct_at. cbv zeta.
  destruct (N.leb_spec (id * Npos (data_words T)) w);
    destruct (N.ltb_spec w (id * Npos (data_words T) + Npos (data_words T)));
    simpl; done || lia.
Qed.

(** ** The element-wise copy of the coordinates *)

Section CopyIndices.
Variable index : PhysicalIndexGroup.

Lemma copy_loop_fields (l : list nat) (m : SNodeMeta) :
  let m' := foldl (λ m i, set_indices <[i := index i]> m) m l in
  ptr m' = ptr m ∧ active m' = active m
  ∧ ∀ i, indices m' i = if decide (i ∈ l) then index i else indices m i.
Proof.
  cbv zeta. revert m. induction l as [|x l IH]; intros m; cbn [foldl].
  - split_and!; [done..|]. intros i. rewrite decide_False; [done|]. apply not_elem_of_nil.
  - destruct (IH (set_indices <[x := index x]> m)) as (Hp & Ha & Hi).
    split_and!; [done..|]. intros i. rewrite Hi. cbn [set_indices indices].
    destruct (decide (i ∈ l)) as [Hin|Hin].
    + rewrite decide_True; [done|]. apply elem_of_cons; by right.
    + destruct (decide (x = i)) as [->|Hne].
      * rewrite fn_lookup_insert. rewrite decide_True; [done|]. apply elem_of_cons; by left.
      * rewrite fn_lookup_insert_ne by done. rewrite decide_False; [done|].
        intros [->|?]%elem_of_cons; done.
Qed.
End CopyIndices.

Section AllocatorFacts.
Context `{Build}.
Variable T : NodeType.

Lemma copy_indices_ptr index m : ptr (copy_indices index m) = ptr m.
Proof. apply (copy_loop_fields index (seq 0 max_num_indices) m). Qed.

Lemma copy_indices_active index m : active (copy_indices index m) = active m.
Proof. apply (copy_loop_fields index (seq 0 max_num_indices) m). Qed.

Lemma copy_indices_inside index m (i : nat) :
  (i < max_num_indices)%nat → indices (copy_indices index m) i = index i.
Proof.
  intros Hi.
  destruct (copy_loop_fields index (seq 0 max_num_indices) m) as (_ & _ & Hx).
  unfold copy_indices. rewrite Hx. apply decide_True, elem_of_seq. lia.
Qed.

(** What a call of [allocate_node] that passes its assertions does. *)
Lemma allocate_node_returns (a : SNodeAllocator) (index : PhysicalIndexGroup) :
  data_pool a ≠ 0 → resident_pool a ≠ 0 →
  ∃ a', allocate_node T (Some a) index
        = Ret (a', data_pool a + resident_tail a * sizeof_data_type T)
    ∧ resident_tail a' = wrap64 (resident_tail a + 1)
    ∧ recycle_tail a' = recycle_tail a
    ∧ data_pool a' = data_pool a
    ∧ resident_pool a' = resident_pool a
    ∧ recycle_pool a' = recycle_pool a
    ∧ recycle_mem a' = recycle_mem a
    ∧ resident_mem a'
      = <[resident_tail a :=
            copy_indices index
              (set_ptr (data_pool a + resident_tail a * sizeof_data_type T)
                 (set_active 1 (resident_mem a (resident_tail a))))]> (resident_mem a)
    ∧ data_mem a' = construct_at T (resident_tail a) (data_mem a).
Proof.
  intros Hd Hr. unfold allocate_node. simpl.
  destruct (N.eqb_spec (data_pool a) 0) as [|_]; [done|]. simpl.
  destruct (N.eqb_spec (resident_pool a) 0) as [|_]; [done|]. simpl.
  rewrite ptr_add_of_N. eexists. split; [reflexivity|]. by split_and!.
Qed.

(** A call of [allocate_node] returns only when its assertions hold. *)
Lemma allocate_node_Ret_inv this index a' p :
  allocate_node T this index = Ret (a', p) →
  ∃ a, this = Some a ∧ data_pool a ≠ 0 ∧ resident_pool a ≠ 0.
Proof.
  destruct this as [a|]; [|discriminate].
  unfold allocate_node. simpl.
  destruct (N.eqb_spec (data_pool a) 0) as [|Hd]; [discriminate|]. simpl.
  destruct (N.eqb_spec (resident_pool a) 0) as [|Hr]; [discriminate|].
  intros _. by exists a.
Qed.

Lemma allocate_node_null_data_pool (a : SNodeAllocator) index :
  data_pool a = 0 → allocate_node T (Some a) index = Abort.
Proof.
  intros Hd. unfold allocate_node. simpl. by rewrite Hd.
Qed.

Lemma allocate_node_null_this index : allocate_node T None index = Fault.
Proof. done. Qed.

(** Successive calls: while the counter does not wrap, call [k] takes
    slot [resident_tail + k]. *)
Lemma allocate_nodes_returns (l : list PhysicalIndexGroup) (a : SNodeAllocator) :
  data_pool a ≠ 0 → resident_pool a ≠ 0 →
  resident_tail a + N.of_nat (length l) < 2 ^ 64 →
  ∃ a', allocate_nodes T a l
        = Ret (a', (λ k, data_pool a + (resident_tail a + N.of_nat k) * sizeof_data_type T)
                     <$> seq 0 (length l))
    ∧ resident_tail a' = resident_tail a + N.of_nat (length l)
    ∧ recycle_tail a' = recycle_tail a
    ∧ data_pool a' = data_pool a
    ∧ resident_pool a' = resident_pool a.
Proof.
  revert a. induction l as [|index l IH]; intros a Hd Hr Hlen; simpl in *.
  - exists a. split_and!; try done. lia.
  - destruct (allocate_node_returns a index Hd Hr)
      as (a1 & -> & Ht & Hrt & Hd1 & Hr1 & _).
    rewrite wrap64_small in Ht by lia. simpl.
    destruct (IH a1) as (a2 & -> & Ht2 & Hrt2 & Hd2 & Hr2);
      [congruence|congruence|lia|].
    simpl. exists a2. split_and!; try congruence; [|lia].
    do 2 f_equal. f_equal.
    + f_equal. lia.
    + change (list_fmap nat N) with (@fmap list _ nat N).
      rewrite <- fmap_S_seq, <- list_fmap_compose. apply list_fmap_ext.
      intros _ k _. simpl. rewrite Hd1, Ht. f_equal. lia.
Qed.
End AllocatorFacts.

(** ** The pool allocator: claims, slots and metadata *)

Section AllocatorClaims.
Context `{Build}.
Variable T : NodeType.

(** C1. [allocate_node] never compares the resident counter with
    [pool_size]: in every pool state that passes the entry assertions,
    whatever the value of [resident_tail], the call returns, takes the slot
    whose index is the old [resident_tail] by one fetch-and-add, and writes
    the metadata record and the child object of that slot. From a counter at or
    above [pool_size] it moves the counter further above it, so that
    [resident_tail ≤ pool_size] is not kept. *)
Theorem allocate_node_no_bounds_check (a : SNodeAllocator) (index : PhysicalIndexGroup) :
  data_pool a ≠ 0 → resident_pool a ≠ 0 →
  ∃ a',
    allocate_node T (Some a) index
      = Ret (a', data_pool a + resident_tail a * sizeof_data_type T)
    ∧ resident_tail a' = wrap64 (resident_tail a + 1)
    ∧ active (resident_mem a' (resident_tail a)) = 1%Z
    ∧ ptr (resident_mem a' (resident_tail a))
      = data_pool a + resident_tail a * sizeof_data_type T
    ∧ (∀ i : nat, (i < max_num_indices)%nat →
         indices (resident_mem a' (resident_tail a)) i = index i)
    ∧ (∀ j, j < Npos (data_words T) →
         data_mem a' (resident_tail a * Npos (data_words T) + j)
         = default (data_mem a (resident_tail a * Npos (data_words T) + j))
             (data_type_ctor T j))
    ∧ (pool_size T ≤ resident_tail a → resident_tail a + 1 < 2 ^ 64 →
         pool_size T < resident_tail a').
Proof.
  intros Hd Hr.
  destruct (allocate_node_returns T a index Hd Hr)
    as (a' & Hcall & Ht & _ & _ & _ & _ & _ & Hm & Hdm).
  exists a'. rewrite Hm, Hdm, Ht, fn_lookup_insert.
  rewrite copy_indices_active, copy_indices_ptr. split_and!; try done.
  - intros i Hi. by apply copy_indices_inside.
  - intros j Hj. by apply construct_at_inside.
  - intros Hfull Hfit. rewrite wrap64_small by done. lia.
Qed.

(** The counter passes [pool_size] in a run of the allocator's own
    operations: [pool_size + 1] calls on a newly constructed allocator all
    return. *)
Lemma resident_tail_passes_pool_size (p_data p_resident p_recycle : N)
    (m_resident m_recycle : N → SNodeMeta) (m_data : N → Z) (index : PhysicalIndexGroup) :
  has_null T = true → p_data ≠ 0 → p_resident ≠ 0 →
  ∃ a' ps,
    allocate_nodes T
      (SNodeAllocator_ctor T p_data p_resident p_recycle m_resident m_recycle m_data)
      (replicate (N.to_nat (pool_size T + 1)) index)
    = Ret (a', ps)
    ∧ resident_tail a' = pool_size T + 1.
Proof.
  intros Hn Hd Hr.
  pose proof (pool_size_bound T) as Hb.
  assert (Hb' : (2 ^ 31 : N) + 1 < 2 ^ 64) by done.
  destruct (allocate_nodes_returns T
              (replicate (N.to_nat (pool_size T + 1)) index)
              (SNodeAllocator_ctor T p_data p_resident p_recycle m_resident m_recycle m_data))
    as (a' & -> & Ht & _); simpl.
  - by rewrite Hn.
  - done.
  - rewrite length_replicate, N2Nat.id. lia.
  - eexists _, _. split; [done|]. rewrite Ht. simpl.
    rewrite length_replicate, N2Nat.id. lia.
Qed.

(** C2. [N] calls of [allocate_node] on a pool whose resident counter is 0,
    [N] being a value of the counter's type [size_t]: the calls return [N]
    pointers, call [k] the one of slot [k]; the slots are pairwise disjoint
    ranges of [sizeof(data_type)] bytes, hence pairwise distinct; and the
    resident counter, as reported by [get_stat], is [N] afterwards. *)
Theorem allocate_nodes_distinct_slots (a : SNodeAllocator) (l : list PhysicalIndexGroup) :
  data_pool a ≠ 0 → resident_pool a ≠ 0 →
  resident_tail a = 0 → N.of_nat (length l) < 2 ^ 64 →
  ∃ a' ps,
    allocate_nodes T a l = Ret (a', ps)
    ∧ length ps = length l
    ∧ (∀ (k : nat) p, ps !! k = Some p →
         p = data_pool a + N.of_nat k * sizeof_data_type T)
    ∧ (∀ (i j : nat) p q, i ≠ j → ps !! i = Some p → ps !! j = Some q →
         p + sizeof_data_type T ≤ q ∨ q + sizeof_data_type T ≤ p)
    ∧ NoDup ps
    ∧ resident_tail a' = N.of_nat (length l)
    ∧ num_resident_blocks (get_stat T a') = N.of_nat (length l).
Proof.
  intros Hd Hr Ht Hlen.
  destruct (allocate_nodes_returns T l a Hd Hr) as (a' & Hcall & Ht' & _); [lia|].
  rewrite Ht in Hcall, Ht'. eexists a', _. split; [exact Hcall|].
  pose proof (sizeof_data_type_pos T) as Hsz.
  assert (Hslot : ∀ (k : nat) p,
    ((λ k : nat, data_pool a + (0 + N.of_nat k) * sizeof_data_type T)
       <$> seq 0 (length l)) !! k = Some p →
    p = data_pool a + N.of_nat k * sizeof_data_type T).
  { intros k p Hk. apply list_lookup_fmap_Some in Hk as (k' & -> & Hk').
    apply lookup_seq in Hk' as [-> _]. done. }
  split_and!.
  - by rewrite length_fmap, length_seq.
  - exact Hslot.
  - intros i j p q Hij Hp%Hslot Hq%Hslot. subst p q. nia.
  - apply NoDup_alt. intros i j p Hp%Hslot Hq%Hslot.
    destruct (decide (i = j)) as [|Hij]; [done|]. nia.
  - lia.
  - simpl. lia.
Qed.

(** C3. The metadata record written by a call of [allocate_node] that
    returns, the one of the slot taken: its first [max_num_indices]
    coordinates are those of the tuple passed in, its [active] is [true],
    and its [ptr] is the pointer returned. *)
Theorem allocate_node_metadata_fidelity (this : option SNodeAllocator)
    (index : PhysicalIndexGroup) (a' : SNodeAllocator) (p : N) :
  allocate_node T this index = Ret (a', p) →
  ∃ a, this = Some a
    ∧ (∀ i : nat, (i < max_num_indices)%nat →
         indices (resident_mem a' (resident_tail a)) i = index i)
    ∧ active (resident_mem a' (resident_tail a)) = 1%Z
    ∧ ptr (resident_mem a' (resident_tail a)) = p.
Proof.
  intros Hcall.
  destruct (allocate_node_Ret_inv T this index a' p Hcall) as (a & -> & Hd & Hr).
  destruct (allocate_node_returns T a index Hd Hr)
    as (a1 & Hcall1 & _ & _ & _ & _ & _ & _ & Hm & _).
  rewrite Hcall1 in Hcall. injection Hcall as -> <-.
  exists a. rewrite Hm, fn_lookup_insert. split_and!; [done| |..].
  - intros i Hi. by apply copy_indices_inside.
  - by rewrite copy_indices_active.
  - by rewrite copy_indices_ptr.
Qed.
End AllocatorClaims.

(** ** The reclamation sweep *)

Section Sweep.
Variable T : NodeType.

(** A property kept by every thread of the grid is kept by the launch. *)
Lemma launch_in_ind (P : SNodeAllocator → Prop) (sched : list N) (block : N)
    (kernel : SNodeAllocator → N → N → SNodeAllocator) (a : SNodeAllocator) :
  (∀ a b t, b ∈ sched → P a → P (kernel a b t)) →
  P a → P (launch_in sched block kernel a).
Proof.
  unfold launch_in. revert a.
  induction sched as [|b sched IH]; intros a Hstep Ha; simpl; [done|].
  apply IH.
  - intros a' b' t Hb'. apply Hstep. by apply elem_of_cons; right.
  - generalize (N.of_nat <$> seq 0 (N.to_nat block)). intros ts. revert a Ha.
    induction ts as [|t ts IHt]; intros a Ha; simpl; [done|].
    apply IHt, Hstep; [apply elem_of_cons; by left|done].
Qed.

(** The blocks of the grid that [clear] launches are the resident slots. *)
Lemma grid_blocks (grid b : N) : b ∈ N.of_nat <$> seq 0 (N.to_nat grid) ↔ b < grid.
Proof.
  rewrite list_elem_of_fmap. split.
  - intros (k & -> & Hk%elem_of_seq). lia.
  - intros Hb. exists (N.to_nat b). split; [lia|]. apply elem_of_seq. lia.
Qed.

(** The sweep writes neither the resident list nor a pointer of the
    allocator. *)
Lemma recycle_all_gpu_frame (a : SNodeAllocator) (b t : N) :
  let a' := recycle_all_gpu T a b t in
  resident_mem a' = resident_mem a ∧ resident_tail a' = resident_tail a
  ∧ data_pool a' = data_pool a ∧ resident_pool a' = resident_pool a
  ∧ recycle_pool a' = recycle_pool a.
Proof.
  unfold recycle_all_gpu.
  destruct (negb (active (resident_mem a b) =? 0)%Z); [done|].
  destruct (t =? 0); done.
Qed.

Lemma clear_frame (a : SNodeAllocator) :
  resident_tail (clear T a) = 0
  ∧ data_pool (clear T a) = data_pool a
  ∧ resident_pool (clear T a) = resident_pool a
  ∧ recycle_pool (clear T a) = recycle_pool a
  ∧ resident_mem (clear T a) = resident_mem a.
Proof.
  unfold clear, launch. simpl. split; [done|].
  apply (launch_in_ind (λ a',
    data_pool a' = data_pool a ∧ resident_pool a' = resident_pool a
    ∧ recycle_pool a' = recycle_pool a ∧ resident_mem a' = resident_mem a));
    [|done].
  intros a' b t _ (Hd & Hr & Hc & Hm).
  destruct (recycle_all_gpu_frame a' b t) as (Hm' & _ & Hd' & Hr' & Hc').
  split_and!; congruence.
Qed.

(** The only data word a thread of block [b] stores into is word [b] of
    slot [b], whichever thread of the block it is. *)
Lemma recycle_all_gpu_data_mem (a : SNodeAllocator) (b t w : N) :
  data_mem (recycle_all_gpu T a b t) w
  = if (active (resident_mem a b) =? 0)%Z && (w =? b * Npos (data_words T) + b)
    then 0%Z else data_mem a w.
Proof.
  unfold recycle_all_gpu.
  destruct (active (resident_mem a b) =? 0)%Z; simpl; [|done].
  destruct (N.eqb_spec w (b * Npos (data_words T) + b)) as [->|Hw].
  - destruct (t =? 0); simpl; by rewrite fn_lookup_insert.
  - destruct (t =? 0); simpl; by rewrite fn_lookup_insert_ne.
Qed.




(** C5. The sweep on the pool of four deactivated slots, whose eight data
    words hold 7: the recycle counter ends at 4 with the four records in the
    recycle list and the resident counter at 0, but every thread of block [b]
    stores its zero in word [b] of slot [b], so that words 1, 2, 4, 5 and 7
    of the four slots still hold 7. *)
Theorem clear_does_not_zero_fill :
  data_mem four_inactive <$> [0; 1; 2; 3; 4; 5; 6; 7] = [7; 7; 7; 7; 7; 7; 7; 7]%Z
  ∧ active ∘ resident_mem four_inactive <$> [0; 1; 2; 3] = [0; 0; 0; 0]%Z
  ∧ resident_tail four_inactive = 4
  ∧ recycle_tail four_inactive = 0
  ∧ resident_tail (clear T2 four_inactive) = 0
  ∧ recycle_tail (clear T2 four_inactive) = 4
  ∧ ptr ∘ recycle_mem (clear T2 four_inactive) <$> [0; 1; 2; 3]
    = [4096; 4104; 4112; 4120]
  ∧ data_mem (clear T2 four_inactive) <$> [0; 1; 2; 3; 4; 5; 6; 7]
    = [0; 7; 7; 0; 7; 7; 0; 7]%Z.
Proof. vm_compute. done. Qed.
End Sweep.

(** ** Reset, statistics and the invariant *)

Section PoolClaims.
Context `{Build}.
Variable T : NodeType.

(** C6. [reset_meta] stores 0 in the resident and the recycle counter and
    changes no other field of the allocator and no memory of its pools, the
    data storage included; [get_stat] after it reports no resident and no
    recycled block. *)
Theorem reset_meta_get_stat (a : SNodeAllocator) :
  resident_tail (reset_meta a) = 0
  ∧ recycle_tail (reset_meta a) = 0
  ∧ data_pool (reset_meta a) = data_pool a
  ∧ resident_pool (reset_meta a) = resident_pool a
  ∧ recycle_pool (reset_meta a) = recycle_pool a
  ∧ data_mem (reset_meta a) = data_mem a
  ∧ resident_mem (reset_meta a) = resident_mem a
  ∧ recycle_mem (reset_meta a) = recycle_mem a
  ∧ num_resident_blocks (get_stat T (reset_meta a)) = 0
  ∧ num_recycled_blocks (get_stat T (reset_meta a)) = 0
  ∧ snode_id (get_stat T (reset_meta a)) = snode_id (get_stat T a)
  ∧ stat_pool_size (get_stat T (reset_meta a)) = stat_pool_size (get_stat T a).
Proof. by split_and!. Qed.





End PoolClaims.

(** ** The assertion on [data_pool] *)

Section DataPoolAssertion.
Context `{Build}.
Variable T : NodeType.

Lemma run_op_pointers (op : pool_op) (a a' : SNodeAllocator) :
  run_op T op a = Ret a' →
  data_pool a' = data_pool a ∧ resident_pool a' = resident_pool a.
Proof.
  destruct op as [index| |]; simpl; intros Hrun.
  - destruct (allocate_node T (Some a) index) as [[a1 p]| |] eqn:Hcall;
      simplify_eq/=.
    destruct (allocate_node_Ret_inv T _ _ _ _ Hcall) as (a0 & [= <-] & Hd & Hr).
    destruct (allocate_node_returns T a index Hd Hr)
      as (a1 & Hcall1 & _ & _ & Hd1 & Hr1 & _).
    rewrite Hcall1 in Hcall. by injection Hcall as -> _.
  - injection Hrun as <-. destruct (clear_frame T a) as (_ & Hd & Hr & _). done.
  - by injection Hrun as <-.
Qed.

(** No operation stores into [data_pool] or [resident_pool] after the
    constructor. *)
Lemma reachable_pointers (p_data p_resident p_recycle : N) (a : SNodeAllocator) :
  reachable T p_data p_resident p_recycle a →
  data_pool a = (if has_null T then p_data else 0) ∧ resident_pool a = p_resident.
Proof.
  induction 1 as [| a op a' _ [IHd IHr] Hrun | a ? ? ? _ IH]; [done| |done].
  destruct (run_op_pointers op a a' Hrun) as [Hd Hr]. split; congruence.
Qed.

(** C10. [allocate_node] stops in a failed assertion when [data_pool] is
    null. The constructor, given a non-null result of [allocate], leaves
    [data_pool] null exactly when [T::has_null] is false. So, in every state
    an allocator of such a node type can reach, every call of [allocate_node]
    stops in the assertion; and where [T::has_null] is true and [allocate]
    returned non-null pointers, every call on the allocator returns. *)
Theorem allocate_node_data_pool_assertion (p_data p_resident p_recycle : N) :
  p_data ≠ 0 → p_resident ≠ 0 →
  (∀ a index, data_pool a = 0 → allocate_node T (Some a) index = Abort)
  ∧ (∀ m_resident m_recycle m_data,
       data_pool (SNodeAllocator_ctor T p_data p_resident p_recycle
                    m_resident m_recycle m_data) = 0
       ↔ has_null T = false)
  ∧ (has_null T = false →
       ∀ a index, reachable T p_data p_resident p_recycle a →
                  allocate_node T (Some a) index = Abort)
  ∧ (has_null T = true →
       ∀ a index, reachable T p_data p_resident p_recycle a →
                  ∃ a' p, allocate_node T (Some a) index = Ret (a', p)).
Proof.
  intros Hpd Hpr. split_and!.
  - intros a index. apply allocate_node_null_data_pool.
  - intros. simpl. destruct (has_null T); naive_solver.
  - intros Hn a index [Hd _]%reachable_pointers. rewrite Hn in Hd.
    by apply allocate_node_null_data_pool.
  - intros Hn a index [Hd Hr]%reachable_pointers. rewrite Hn in Hd.
    destruct (allocate_node_returns T a index) as (a' & Hcall & _);
      [congruence..|]. eauto.
Qed.
End DataPoolAssertion.

(** ** Look-up and activation *)

Section ContainerClaims.
Context `{Build}.

(** C9. [look_up] of [pointer] returns the field [data] and [look_up] of
    [layout_root] the address of [children], whatever the index: the two
    functions are total, do not read their argument, and leave the container
    as it is. *)
Theorem look_up_ignores_index :
  (∀ (p : pointer) (i j : Z),
     pointer_look_up p i = pointer_look_up p j ∧ pointer_look_up p i = pointer_data p)
  ∧ (∀ (r : layout_root) (i j : Z),
       root_look_up r i = root_look_up r j ∧ root_look_up r i = root_this r)
  ∧ (∀ (T : NodeType) (p : pointer) (i : Z),
       look_up (Pointer T p) i = Called (Pointer T p, pointer_data p))
  ∧ (∀ (r : layout_root) (i : Z),
       look_up (Root r) i = Called (Root r, root_this r)).
Proof. by split_and!. Qed.

Lemma Managers_allocate_node_nonnull T ms index ms1 p :
  Managers_allocate_node T ms index = Ret (ms1, p) → p ≠ 0.
Proof.
  unfold Managers_allocate_node, Managers_get_allocator.
  destruct (get_manager T ms) as [m|]; [simpl|done].
  destruct (allocate_node T (get_allocator m) index) as [[a' q]| |] eqn:Hcall;
    [simpl|done..].
  intros [= _ <-].
  destruct (allocate_node_Ret_inv T _ _ _ _ Hcall) as (a & Ha & Hd & Hr).
  rewrite Ha in Hcall.
  destruct (allocate_node_returns T a index Hd Hr) as (a1 & Hcall1 & _).
  rewrite Hcall1 in Hcall. injection Hcall as _ <-. lia.
Qed.

Lemma spin_two (fuel : nat) (l : Z) :
  spin (S (S fuel)) l = Some (if (l =? 0)%Z then 1%Z else l).
Proof.
  simpl. unfold atomicCAS. destruct (Z.eqb_spec l 0) as [->|Hl]; [done|].
  by destruct fuel.
Qed.

Lemma foldl_skip {A} (f : A → nat → A) (l : list nat) (x : A) :
  (∀ y k, k ∈ l → f y k = y) → foldl f x l = x.
Proof.
  induction l as [|k l IH]; intros Hid; simpl; [done|].
  rewrite Hid by (apply elem_of_cons; by left).
  apply IH. intros y k' Hk'. apply Hid. apply elem_of_cons; by right.
Qed.

Lemma foldl_one_turn {A} (f : A → nat → A) (n : nat) (l : list nat) (x : A) :
  NoDup l → n ∈ l → (∀ y k, k ≠ n → f y k = y) → foldl f x l = f x n.
Proof.
  induction l as [|k l IH]; intros Hnd Hin Hid; simpl.
  - by apply elem_of_nil in Hin.
  - apply NoDup_cons in Hnd as [Hk Hnd].
    destruct (decide (k = n)) as [->|Hne].
    + apply foldl_skip. intros y k Hkl. apply Hid. by intros ->.
    + rewrite Hid by done. apply IH; [done| |done].
      apply elem_of_cons in Hin as [->|]; done.
Qed.

(** The device build of [pointer::activate] comes down to the turn of the
    calling lane. *)
Lemma pointer_activate_device fuel threadIdx_x T ms p i index :
  CUDA_ARCH = true →
  pointer_activate fuel threadIdx_x T ms p i index
  = (l ← spin fuel (lock p);
     Some ('(ms, p) ← pointer_activate_body T ms
                        {| pointer_data := pointer_data p; lock := l |} index;
           Ret (ms, {| pointer_data := pointer_data p; lock := 0 |}))).
Proof.
  intros Hdev. unfold pointer_activate. rewrite Hdev. cbv zeta.
  pose proof (Z.mod_pos_bound threadIdx_x 32 eq_refl) as Hw.
  rewrite (foldl_one_turn _ (Z.to_nat (threadIdx_x `mod` 32))).
  - unfold pointer_activate_turn at 1. simpl.
    rewrite Z2Nat.id by lia. by rewrite Z.eqb_refl.
  - apply NoDup_seq.
  - apply elem_of_seq. lia.
  - intros st k Hk. unfold pointer_activate_turn.
    destruct st as [[[ms' p']| |]|]; simpl; try done.
    destruct (Z.eqb_spec (Z.of_nat k) (threadIdx_x `mod` 32)); [lia|done].
Qed.

Lemma pointer_activate_body_nonnull T ms p index ms1 p1 :
  pointer_activate_body T ms p index = Ret (ms1, p1) →
  pointer_data p1 ≠ 0 ∧ lock p1 = lock p.
Proof.
  unfold pointer_activate_body.
  destruct (N.eqb_spec (pointer_data p) 0) as [Hz|Hnz].
  - destruct (Managers_allocate_node T ms index) as [[ms' d]| |] eqn:Hcall;
      [simpl|done..].
    intros [= _ <-]. simpl. split; [|done].
    by apply (Managers_allocate_node_nonnull T ms index ms').
  - by intros [= _ <-].
Qed.

Lemma pointer_activate_body_again T ms p index :
  pointer_data p ≠ 0 → pointer_activate_body T ms p index = Ret (ms, p).
Proof.
  intros Hnz. unfold pointer_activate_body.
  by destruct (N.eqb_spec (pointer_data p) 0).
Qed.

Lemma pointer_activate_twice fuel tid T ms p i index ms1 p1 :
  pointer_activate (S (S fuel)) tid T ms p i index = Some (Ret (ms1, p1)) →
  pointer_look_up p1 i ≠ 0
  ∧ ∀ tid' index',
      pointer_activate (S (S fuel)) tid' T ms1 p1 i index' = Some (Ret (ms1, p1)).
Proof.
  destruct CUDA_ARCH eqn:Hdev.
  - rewrite pointer_activate_device, spin_two by done. simpl.
    destruct (pointer_activate_body T ms _ index) as [[ms' p']| |] eqn:Hbody;
      [simpl|done..].
    intros [= <- <-].
    apply pointer_activate_body_nonnull in Hbody as [Hnz _].
    split; [done|]. intros tid' index'.
    rewrite pointer_activate_device, spin_two by done. simpl.
    by rewrite pointer_activate_body_again.
  - unfold pointer_activate. rewrite Hdev. intros [= Hbody].
    pose proof (pointer_activate_body_nonnull _ _ _ _ _ _ Hbody) as [Hnz _].
    split; [done|]. intros _ index'. by rewrite pointer_activate_body_again.
Qed.

(** C4. A [pointer]: after a call of [activate] that returns, [look_up] is
    non-null, and a further call of [activate] returns with the container
    and the registry as they were, so that nothing is allocated and [look_up]
    is the same reference. A [hashed]: the same holds of a second call on the
    index of a call that returned; [look_up] of an index absent from the map
    is null; and after [activate] of such an index [look_up] is the non-null
    pointer that the call obtained from [allocate_node]. *)
Theorem activation_idempotent (T : NodeType) (ms ms1 : Managers) (i : Z)
    (index : PhysicalIndexGroup) :
  (∀ fuel tid (p p1 : pointer),
     pointer_activate (S (S fuel)) tid T ms p i index = Some (Ret (ms1, p1)) →
     pointer_look_up p1 i ≠ 0
     ∧ ∀ tid' index',
         pointer_activate (S (S fuel)) tid' T ms1 p1 i index' = Some (Ret (ms1, p1)))
  ∧ (∀ h h1 : hashed,
       hashed_activate T ms h i index = Ret (ms1, h1) →
       ∀ index', hashed_activate T ms1 h1 i index' = Ret (ms1, h1))
  ∧ (∀ h : hashed, hashed_data h !! i = None → hashed_look_up h i = 0)
  ∧ (∀ h h1 : hashed,
       hashed_data h !! i = None →
       hashed_activate T ms h i index = Ret (ms1, h1) →
       ∃ p, Managers_allocate_node T ms index = Ret (ms1, p)
            ∧ p ≠ 0 ∧ hashed_look_up h1 i = p).
Proof.
  split_and!.
  - intros fuel tid p p1. apply pointer_activate_twice.
  - intros h h1 Hact index'. unfold hashed_activate in *.
    destruct (hashed_data h !! i) as [q|] eqn:Hq.
    + injection Hact as <- <-. by rewrite Hq.
    + destruct (Managers_allocate_node T ms index) as [[ms' q]| |];
        simplify_eq/=. by rewrite lookup_insert_eq.
  - intros h Hq. unfold hashed_look_up. by rewrite Hq.
  - intros h h1 Hq Hact. unfold hashed_activate in Hact. rewrite Hq in Hact.
    destruct (Managers_allocate_node T ms index) as [[ms' q]| |] eqn:Hcall;
      simplify_eq/=.
    exists q. split_and!; [done| |].
    + by apply (Managers_allocate_node_nonnull T ms index ms1).
    + unfold hashed_look_up. simpl. by rewrite lookup_insert_eq.
Qed.

(** C7. Every container declares [look_up], [get_n] and [has_null];
    [get_max_n] is declared by all but [hashed], and [activate] by all but
    [indirect]. The contract with all five names is that of [layout_root],
    [dense], [pointer] and [dynamic]. *)
Theorem container_contract (c : container) :
  (∀ i, declared (look_up c i) = true)
  ∧ declared (get_n c) = true
  ∧ declared (container_has_null c) = true
  ∧ (declared (get_max_n c) = false ↔ kind c = hashed_v)
  ∧ (∀ fuel tid ms i index,
       declared (activate fuel tid ms c i index) = false ↔ kind c = indirect_v)
  ∧ (full_contract c = true ↔ kind c ≠ hashed_v ∧ kind c ≠ indirect_v).
Proof.
  destruct c as [r|d|T p|T h|d|d]; unfold full_contract; simpl;
    split_and!; try done; try (intros; done).
  all: split; [discriminate|by intros []].
Qed.
End ContainerClaims.

(** * The theorems at concrete pools and containers *)

Lemma allocate_node_no_bounds_check_witness :
  data_pool full2 ≠ 0 ∧ resident_pool full2 ≠ 0
  ∧ resident_tail full2 = pool_size T2
  ∧ ∃ a', allocate_node (H := host_build) T2 (Some full2) (coords 9)
          = Ret (a', 4096 + pool_size T2 * 8)
     ∧ resident_tail a' = pool_size T2 + 1
     ∧ ptr (resident_mem a' (pool_size T2)) = 4096 + pool_size T2 * 8.
Proof.
  split_and!; [done..|].
  destruct (allocate_node_no_bounds_check (H := host_build) T2 full2 (coords 9))
    as (a' & Hcall & Ht & _ & Hp & _); [done..|].
  exists a'. split_and!; [exact Hcall|exact Ht|exact Hp].
Defined.

Lemma allocate_nodes_distinct_slots_witness :
  ∃ a', allocate_nodes (H := host_build) T2 fresh2 [coords 0; coords 1; coords 2]
        = Ret (a', [4096; 4104; 4112])
     ∧ resident_tail a' = 3.
Proof.
  destruct (allocate_nodes_distinct_slots (H := host_build) T2 fresh2
              [coords 0; coords 1; coords 2])
    as (a' & ps & Hcall & _ & _ & _ & _ & Ht & _); [done..|].
  exists a'. split; [|exact Ht].
  rewrite Hcall. f_equal. f_equal.
  vm_compute in Hcall. by injection Hcall as _ <-.
Defined.

Lemma allocate_node_metadata_fidelity_witness :
  ∃ a' p, allocate_node (H := host_build) T2 (Some fresh2) (coords 5) = Ret (a', p)
     ∧ indices (resident_mem a' 0) <$> [0; 1; 2; 3]%nat = [5; 0; 0; 0]%Z
     ∧ active (resident_mem a' 0) = 1%Z
     ∧ ptr (resident_mem a' 0) = p.
Proof.
  eexists _, _. split; [reflexivity|].
  edestruct (allocate_node_metadata_fidelity (H := host_build) T2 (Some fresh2) (coords 5))
    as (a & [= <-] & Hi & Ha & Hp); [reflexivity|].
  split_and!; [|exact Ha|exact Hp].
  change ([5; 0; 0; 0]%Z) with (coords 5 <$> [0; 1; 2; 3]%nat).
  apply Forall_fmap_ext_1. repeat constructor; apply Hi; simpl; lia.
Defined.

Lemma activation_idempotent_witness :
  hashed_look_up hashed_ctor 5 = 0
  ∧ (∃ ms1 h1,
       hashed_activate (H := host_build) T2 registry2 hashed_ctor 5 (coords 5)
       = Ret (ms1, h1)
       ∧ hashed_look_up h1 5 = 4096
       ∧ hashed_activate (H := host_build) T2 ms1 h1 5 (coords 6) = Ret (ms1, h1))
  ∧ (∃ ms1 p1,
       pointer_activate (H := device_build) 2 37 T2 registry2
         {| pointer_data := 0; lock := 0 |} 0 (coords 5)
       = Some (Ret (ms1, p1))
       ∧ pointer_look_up p1 0 ≠ 0
       ∧ pointer_activate (H := device_build) 2 11 T2 ms1 p1 0 (coords 6)
         = Some (Ret (ms1, p1))).
Proof.
  split_and!.
  - by apply (activation_idempotent (H := host_build) T2 registry2 registry2 5 (coords 5)).
  - destruct (hashed_activate (H := host_build) T2 registry2 hashed_ctor 5 (coords 5))
      as [[ms1 h1]| |] eqn:Hh; [|by vm_compute in Hh..].
    exists ms1, h1.
    destruct (activation_idempotent (H := host_build) T2 registry2 ms1 5 (coords 5))
      as (_ & Hagain & _ & Hnew).
    split_and!; [done| |by apply (Hagain hashed_ctor)].
    destruct (Hnew hashed_ctor h1) as (p & Hcall & _ & ->); [done..|].
    vm_compute in Hcall. by injection Hcall as _ <-.
  - destruct (pointer_activate (H := device_build) 2 37 T2 registry2
                {| pointer_data := 0; lock := 0 |} 0 (coords 5))
      as [[[ms1 p1]| |]|] eqn:Hp; [|by vm_compute in Hp..].
    exists ms1, p1.
    destruct (activation_idempotent (H := device_build) T2 registry2 ms1 0 (coords 5))
      as (Hptr & _).
    destruct (Hptr 0%nat 37%Z {| pointer_data := 0; lock := 0 |} p1 Hp) as [Hnz Hagain].
    split_and!; [done|exact Hnz|apply Hagain].
Defined.



Lemma allocate_node_data_pool_assertion_witness :
  allocate_node (H := host_build) Tdense
    (Some (SNodeAllocator_ctor Tdense 4096 8192 12288
             (λ _, zero_meta) (λ _, zero_meta) (λ _, 0%Z))) (coords 0)
  = Abort
  ∧ ∃ a' p, allocate_node (H := host_build) T2 (Some fresh2) (coords 0) = Ret (a', p).
Proof.
  split.
  - destruct (allocate_node_data_pool_assertion (H := host_build) Tdense 4096 8192 12288)
      as (_ & _ & Hfalse & _); [done..|].
    apply Hfalse; [done|]. apply reach_ctor.
  - destruct (allocate_node_data_pool_assertion (H := host_build) T2 4096 8192 12288)
      as (_ & _ & _ & Htrue); [done..|].
    apply Htrue; [done|]. apply reach_ctor.
Defined.

(** A [hashed] has no [get_max_n] and an [indirect] no [activate]: they do
    not implement the five names of the contract. *)
Lemma hashed_indirect_lack_members :
  full_contract (H := host_build) (Hashed T2 hashed_ctor) = false
  ∧ get_max_n (Hashed T2 hashed_ctor) = NoMember
  ∧ full_contract (H := host_build) (Indirect (indirect_ctor 64 8)) = false
  ∧ activate (H := host_build) 2 0 registry2 (Indirect (indirect_ctor 64 8)) 0 (coords 0)
    = NoMember.
Proof. by split_and!. Qed.

(** * Further properties of the allocator *)

Section AllocatorMore.
Context `{Build}.
Variable T : NodeType.

(** X1. A call of [allocate_node] that takes a slot of the pool, the
    resident counter being below [pool_size], and returns writes the record
    and the data words of that slot and nothing else in the pools: the other
    records of the resident list, the data words of the other slots, the
    cells of the recycle list and its counter and the three pool pointers
    are as before. *)
Theorem allocate_node_frame (a a' : SNodeAllocator) (index : PhysicalIndexGroup) (p : N) :
  resident_tail a < pool_size T →
  allocate_node T (Some a) index = Ret (a', p) →
  (∀ k, k < pool_size T → k ≠ resident_tail a → resident_mem a' k = resident_mem a k)
  ∧ (∀ w, w < pool_size T * Npos (data_words T) →
          w < resident_tail a * Npos (data_words T)
          ∨ (resident_tail a + 1) * Npos (data_words T) ≤ w →
          data_mem a' w = data_mem a w)
  ∧ recycle_tail a' = recycle_tail a
  ∧ (∀ k, k < pool_size T → recycle_mem a' k = recycle_mem a k)
  ∧ data_pool a' = data_pool a
  ∧ resident_pool a' = resident_pool a
  ∧ recycle_pool a' = recycle_pool a.
Proof.
  intros _ Hcall.
  destruct (allocate_node_Ret_inv T _ _ _ _ Hcall) as (a0 & [= <-] & Hd & Hr).
  destruct (allocate_node_returns T a index Hd Hr)
    as (a1 & Hcall1 & _ & Hrt & Hd1 & Hr1 & Hc1 & Hrm & Hm & Hdm).
  rewrite Hcall1 in Hcall. injection Hcall as -> _.
  split_and!; try done.
  - intros k _ Hk. rewrite Hm. by apply fn_lookup_insert_ne.
  - intros w _ Hw. rewrite Hdm. apply construct_at_outside. lia.
  - intros k _. by rewrite Hrm.
Qed.

(** X2. [allocate_node] called on an allocator, [this] not being null,
    dereferences no null pointer: it stops in an assertion exactly when
    [data_pool] or [resident_pool] is null and returns otherwise;
    [recycle_pool] is not looked at. A call through a null allocator pointer
    is a null dereference and does not return. *)
Theorem allocate_node_outcome (index : PhysicalIndexGroup) :
  allocate_node T None index = Fault
  ∧ ∀ a : SNodeAllocator,
      allocate_node T (Some a) index ≠ Fault
      ∧ (allocate_node T (Some a) index = Abort
         ↔ data_pool a = 0 ∨ resident_pool a = 0)
      ∧ ((∃ a' p, allocate_node T (Some a) index = Ret (a', p))
         ↔ data_pool a ≠ 0 ∧ resident_pool a ≠ 0).
Proof.
  split; [apply allocate_node_null_this|]. intros a.
  destruct (decide (data_pool a = 0)) as [Hd|Hd];
    [|destruct (decide (resident_pool a = 0)) as [Hr|Hr]].
  - rewrite allocate_node_null_data_pool by done. split_and!; [done| |].
    + split; [intros _; by left|done].
    + split; [by intros (? & ? & ?)|]. by intros [? _].
  - assert (Hcall : allocate_node T (Some a) index = Abort).
    { unfold allocate_node. simpl.
      destruct (N.eqb_spec (data_pool a) 0); [done|]. simpl. by rewrite Hr. }
    rewrite Hcall. split_and!; [done| |].
    + split; [intros _; by right|done].
    + split; [by intros (? & ? & ?)|]. by intros [_ ?].
  - destruct (allocate_node_returns T a index Hd Hr) as (a' & Hcall & _).
    rewrite Hcall. split_and!; [done| |].
    + split; [done|]. by intros [|].
    + split; [done|by eauto].
Qed.

(** X3. The pool holds as many children as fit into 8 GB: [pool_size]
    children take at most [2^33] bytes and one more would not fit. *)
Theorem pool_size_budget :
  pool_size T * sizeof_data_type T ≤ 2 ^ 33
  ∧ 2 ^ 33 < (pool_size T + 1) * sizeof_data_type T
  ∧ (1 ≤ pool_size T ↔ sizeof_data_type T ≤ 2 ^ 33).
Proof.
  pose proof (sizeof_data_type_pos T) as Hpos.
  unfold pool_size. change (N.shiftl 1 33) with (2 ^ 33).
  pose proof (N.Div0.mul_div_le (2 ^ 33) (sizeof_data_type T)) as Hle.
  pose proof (N.mul_succ_div_gt (2 ^ 33) (sizeof_data_type T)) as Hgt.
  split_and!; [lia|lia|]. split.
  - intros Hone. nia.
  - intros Hfit.
    pose proof (N.Div0.div_le_mono (sizeof_data_type T) (2 ^ 33) (sizeof_data_type T) Hfit)
      as Hmono.
    rewrite N.div_same in Hmono by lia. done.
Qed.
End AllocatorMore.

(** ** Runs of calls and the sweep after them *)

Section RunsAndSweep.
Context `{Build}.
Variable T : NodeType.

(** The resident list after a run of calls: the records below the old
    counter are as before, and record [resident_tail + k] is the one call
    [k] wrote. *)
Lemma allocate_nodes_resident_list (l : list PhysicalIndexGroup) (a a' : SNodeAllocator)
    (ps : list N) :
  data_pool a ≠ 0 → resident_pool a ≠ 0 →
  resident_tail a + N.of_nat (length l) < 2 ^ 64 →
  allocate_nodes T a l = Ret (a', ps) →
  (∀ j, j < resident_tail a → resident_mem a' j = resident_mem a j)
  ∧ (∀ (k : nat) index, l !! k = Some index →
       active (resident_mem a' (resident_tail a + N.of_nat k)) = 1%Z
       ∧ ptr (resident_mem a' (resident_tail a + N.of_nat k))
         = data_pool a + (resident_tail a + N.of_nat k) * sizeof_data_type T
       ∧ ∀ i : nat, (i < max_num_indices)%nat →
           indices (resident_mem a' (resident_tail a + N.of_nat k)) i = index i)
  ∧ recycle_tail a' = recycle_tail a
  ∧ recycle_mem a' = recycle_mem a.
Proof.
  revert a a' ps. induction l as [|index l IH]; intros a a' ps Hd Hr Hlen Hrun;
    simpl in Hrun, Hlen.
  - injection Hrun as <- _. split_and!; [done| |done..]. by intros k index [=].
  - destruct (allocate_node_returns T a index Hd Hr)
      as (a1 & Hcall & Ht & Hrt & Hd1 & Hr1 & _ & Hrm & Hm & _).
    rewrite wrap64_small in Ht by lia.
    rewrite Hcall in Hrun. simpl in Hrun.
    destruct (allocate_nodes T a1 l) as [[a2 ps2]| |] eqn:Hrest; simplify_eq/=.
    destruct (IH a1 a' ps2) as (Hold & Hnew & Hrt2 & Hrm2);
      [congruence|congruence|lia|done|].
    assert (Hfirst : resident_mem a' (resident_tail a)
                     = resident_mem a1 (resident_tail a)) by (apply Hold; lia).
    split_and!; [| |congruence..].
    + intros j Hj. rewrite Hold by lia. rewrite Hm. apply fn_lookup_insert_ne. lia.
    + intros [|k] index' Hk; simpl in Hk.
      * injection Hk as <-. rewrite N.add_0_r, Hfirst, Hm, fn_lookup_insert.
        rewrite copy_indices_active, copy_indices_ptr. split_and!; [done..|].
        intros i Hi. by apply copy_indices_inside.
      * destruct (Hnew k index' Hk) as (Ha & Hp & Hi).
        replace (resident_tail a + N.of_nat (S k))
          with (resident_tail a1 + N.of_nat k) by lia.
        rewrite Hd1 in Hp. done.
Qed.

(** X4. A run of calls of [allocate_node] that stays within the pool, the
    resident counter ending at most at [pool_size], leaves one record per
    call: afterwards record [resident_tail + k] is active, holds the
    coordinates passed to call [k] and points to the child call [k]
    returned, while the records below the old counter and the cells of the
    recycle list are untouched. A later call does not disturb the record of
    an earlier one. *)
Theorem allocate_nodes_keep_records (l : list PhysicalIndexGroup)
    (a a' : SNodeAllocator) (ps : list N) :
  data_pool a ≠ 0 → resident_pool a ≠ 0 →
  resident_tail a + N.of_nat (length l) ≤ pool_size T →
  allocate_nodes T a l = Ret (a', ps) →
  (∀ (k : nat) index, l !! k = Some index →
     active (resident_mem a' (resident_tail a + N.of_nat k)) = 1%Z
     ∧ ps !! k = Some (ptr (resident_mem a' (resident_tail a + N.of_nat k)))
     ∧ ∀ i : nat, (i < max_num_indices)%nat →
         indices (resident_mem a' (resident_tail a + N.of_nat k)) i = index i)
  ∧ (∀ j, j < resident_tail a → resident_mem a' j = resident_mem a j)
  ∧ recycle_tail a' = recycle_tail a
  ∧ (∀ k, k < pool_size T → recycle_mem a' k = recycle_mem a k).
Proof.
  intros Hd Hr Hpool Hrun.
  pose proof (pool_size_bound T) as Hbound.
  assert (Hlen : resident_tail a + N.of_nat (length l) < 2 ^ 64).
  { assert ((2 ^ 31 : N) < 2 ^ 64) by done. lia. }
  destruct (allocate_nodes_resident_list l a a' ps Hd Hr Hlen Hrun)
    as (Hold & Hnew & Hrt & Hrm).
  destruct (allocate_nodes_returns T l a Hd Hr Hlen) as (a1 & Hrun1 & _).
  rewrite Hrun1 in Hrun. injection Hrun as _ <-.
  split_and!; [|done|done|by intros k _; rewrite Hrm].
  intros k index Hk. destruct (Hnew k index Hk) as (Ha & Hp & Hi).
  split_and!; [done| |done].
  rewrite Hp, list_lookup_fmap, lookup_seq_lt; [done|].
  by apply lookup_lt_Some in Hk.
Qed.
End RunsAndSweep.

(** ** What the sweep leaves *)

Section SweepMore.
Variable T : NodeType.

Lemma block_threads :
  ∃ ts, N.of_nat <$> seq 0 (N.to_nat (sizeof_data_type T / 4)) = 0 :: ts
        ∧ Forall (λ t, t ≠ 0) ts.
Proof.
  rewrite sizeof_data_type_words.
  change (N.to_nat (Npos (data_words T))) with (Pos.to_nat (data_words T)).
  destruct (Pos2Nat.is_succ (data_words T)) as [k ->]. simpl.
  eexists. split; [done|].
  apply Forall_fmap, Forall_forall. intros x Hx%elem_of_seq. simpl. lia.
Qed.

(** The threads of a block other than thread 0 repeat the store of the
    zero. *)
Lemma recycle_all_gpu_later_threads (a0 : SNodeAllocator) (b : N) (ts : list N)
    (a : SNodeAllocator) :
  Forall (λ t, t ≠ 0) ts →
  resident_mem a = resident_mem a0 →
  (∀ w, data_mem a w
        = if (active (resident_mem a0 b) =? 0)%Z && (w =? b * Npos (data_words T) + b)
          then 0%Z else data_mem a0 w) →
  let r := foldl (λ a t, recycle_all_gpu T a b t) a ts in
  resident_mem r = resident_mem a0
  ∧ recycle_tail r = recycle_tail a
  ∧ recycle_mem r = recycle_mem a
  ∧ ∀ w, data_mem r w
         = if (active (resident_mem a0 b) =? 0)%Z && (w =? b * Npos (data_words T) + b)
           then 0%Z else data_mem a0 w.
Proof.
  cbv zeta. intros Hts. revert a.
  induction Hts as [|t ts Ht _ IH]; intros a Hm Hdata; simpl; [done|].
  assert (Hstep : recycle_tail (recycle_all_gpu T a b t) = recycle_tail a
                  ∧ recycle_mem (recycle_all_gpu T a b t) = recycle_mem a).
  { unfold recycle_all_gpu.
    destruct (negb (active (resident_mem a b) =? 0)%Z); [done|].
    by destruct (N.eqb_spec t 0). }
  destruct Hstep as [Ht' Hrm'].
  destruct (recycle_all_gpu_frame T a b t) as (Hm' & _).
  destruct (IH (recycle_all_gpu T a b t)) as (Hr1 & Hr2 & Hr3 & Hr4);
    [congruence| |split_and!; congruence || done].
  intros w. rewrite recycle_all_gpu_data_mem, Hm, Hdata.
  destruct (active (resident_mem a0 b) =? 0)%Z; [|done]. simpl.
  by destruct (w =? b * Npos (data_words T) + b).
Qed.

(** One block of the sweep: the record of an inactive slot is appended
    once, by thread 0, and word [b] of the slot is zeroed. *)
Lemma recycle_all_gpu_block (a : SNodeAllocator) (b : N) :
  let r := foldl (λ a t, recycle_all_gpu T a b t) a
             (N.of_nat <$> seq 0 (N.to_nat (sizeof_data_type T / 4))) in
  resident_mem r = resident_mem a
  ∧ recycle_tail r = (if (active (resident_mem a b) =? 0)%Z
                      then wrap64 (recycle_tail a + 1) else recycle_tail a)
  ∧ recycle_mem r = (if (active (resident_mem a b) =? 0)%Z
                     then <[recycle_tail a := resident_mem a b]> (recycle_mem a)
                     else recycle_mem a)
  ∧ ∀ w, data_mem r w
         = if (active (resident_mem a b) =? 0)%Z && (w =? b * Npos (data_words T) + b)
           then 0%Z else data_mem a w.
Proof.
  cbv zeta. destruct block_threads as (ts & -> & Hts). cbn [foldl].
  destruct (recycle_all_gpu_frame T a b 0) as (Hm & _).
  destruct (recycle_all_gpu_later_threads a b ts (recycle_all_gpu T a b 0) Hts Hm)
    as (Hr1 & Hr2 & Hr3 & Hr4).
  { intros w. apply recycle_all_gpu_data_mem. }
  rewrite Hr1, Hr2, Hr3. split_and!; [done| | |done].
  - unfold recycle_all_gpu. by destruct (active (resident_mem a b) =? 0)%Z.
  - unfold recycle_all_gpu. by destruct (active (resident_mem a b) =? 0)%Z.
Qed.


(** The data words after the sweep over the blocks [sched]. *)
Lemma launch_in_data_mem (sched : list N) (a : SNodeAllocator) (w : N) :
  data_mem (launch_in sched (sizeof_data_type T / 4) (recycle_all_gpu T) a) w
  = if existsb (λ b, (active (resident_mem a b) =? 0)%Z
                     && (w =? b * Npos (data_words T) + b)) sched
    then 0%Z else data_mem a w.
Proof.
  unfold launch_in. revert a.
  induction sched as [|b sched IH]; intros a; cbn [foldl existsb]; [done|].
  destruct (recycle_all_gpu_block a b) as (Hm & _ & _ & Hdata).
  rewrite IH, Hm, Hdata.
  destruct ((active (resident_mem a b) =? 0)%Z && (w =? b * Npos (data_words T) + b));
    simpl; [|done].
  by destruct (existsb _ sched).
Qed.
End SweepMore.

Section SweepClaims.
Context `{Build}.
Variable T : NodeType.

Lemma inactive_blocks_resident (a : SNodeAllocator) (b : N) :
  b ∈ inactive_blocks a (resident_blocks a)
  ↔ b < resident_tail a ∧ active (resident_mem a b) = 0%Z.
Proof.
  unfold inactive_blocks, resident_blocks.
  rewrite list_elem_of_filter, grid_blocks. tauto.
Qed.

Lemma inactive_blocks_none (a : SNodeAllocator) :
  (∀ b, b < resident_tail a → active (resident_mem a b) ≠ 0%Z) →
  inactive_blocks a (resident_blocks a) = [].
Proof.
  intros Hact.
  destruct (inactive_blocks a (resident_blocks a)) as [|b l] eqn:Hl; [done|].
  assert (Hb : b ∈ inactive_blocks a (resident_blocks a))
    by (rewrite Hl; apply elem_of_cons; by left).
  apply inactive_blocks_resident in Hb as [Hlt Hz]. by destruct (Hact b).
Qed.


(** X6. The data words after [clear]: for every resident slot [b] that is
    not active, the word at offset [b] from the start of slot [b] is 0; a
    word that is at no such place is as before, be it a word of a swept
    slot. *)
Theorem clear_data_words (a : SNodeAllocator) :
  (∀ b, b < resident_tail a → active (resident_mem a b) = 0%Z →
        data_mem (clear T a) (b * Npos (data_words T) + b) = 0%Z)
  ∧ (∀ w, (∀ b, b < resident_tail a → active (resident_mem a b) = 0%Z →
                w ≠ b * Npos (data_words T) + b) →
          data_mem (clear T a) w = data_mem a w).
Proof.
  unfold clear, launch. fold (resident_blocks a). simpl. split.
  - intros b Hb Hz. rewrite launch_in_data_mem.
    destruct (existsb _ (resident_blocks a)) eqn:Hex; [done|].
    apply not_true_iff_false in Hex. destruct Hex.
    apply existsb_exists. exists b. split.
    + apply list_elem_of_In. by apply grid_blocks.
    + rewrite Hz, N.eqb_refl. done.
  - intros w Hw. rewrite launch_in_data_mem.
    destruct (existsb _ (resident_blocks a)) eqn:Hex; [|done].
    apply existsb_exists in Hex as (b & Hin & Hb).
    apply list_elem_of_In, grid_blocks in Hin.
    apply andb_true_iff in Hb as [Hz%Z.eqb_eq Hweq%N.eqb_eq].
    by destruct (Hw b).
Qed.

Lemma recycle_all_gpu_active (a : SNodeAllocator) (b t : N) :
  active (resident_mem a b) ≠ 0%Z → recycle_all_gpu T a b t = a.
Proof.
  intros Hact. unfold recycle_all_gpu.
  by destruct (Z.eqb_spec (active (resident_mem a b)) 0).
Qed.

Lemma clear_all_active (a : SNodeAllocator) :
  (∀ b, b < resident_tail a → active (resident_mem a b) ≠ 0%Z) →
  clear T a = set_resident_tail 0 a.
Proof.
  intros Hact. unfold clear, launch, launch_in. f_equal.
  assert (Hblocks : ∀ b, b ∈ N.of_nat <$> seq 0 (N.to_nat (resident_tail a)) →
                         active (resident_mem a b) ≠ 0%Z).
  { intros b Hb%grid_blocks. by apply Hact. }
  revert Hblocks. generalize (N.of_nat <$> seq 0 (N.to_nat (resident_tail a))).
  intros bs. induction bs as [|b bs IH]; intros Hbs; cbn [foldl]; [done|].
  assert (Hb : active (resident_mem a b) ≠ 0%Z)
    by (apply Hbs, elem_of_cons; by left).
  replace (foldl (λ a t, recycle_all_gpu T a b t) a
             (N.of_nat <$> seq 0 (N.to_nat (sizeof_data_type T / 4)))) with a.
  - apply IH. intros b' Hb'. apply Hbs, elem_of_cons. by right.
  - generalize (N.of_nat <$> seq 0 (N.to_nat (sizeof_data_type T / 4))).
    intros ts. induction ts as [|t ts IHt]; cbn [foldl]; [done|].
    by rewrite recycle_all_gpu_active.
Qed.

(** X7. A sweep right after a run of at most [pool_size] calls of
    [allocate_node] on an empty resident list recycles nothing, since every
    record just written is active: it only stores 0 in the resident counter.
    The recycle counter and the cells of the recycle list are those of
    before the calls. *)
Theorem allocate_nodes_then_clear (l : list PhysicalIndexGroup)
    (a a' : SNodeAllocator) (ps : list N) :
  data_pool a ≠ 0 → resident_pool a ≠ 0 →
  resident_tail a = 0 → N.of_nat (length l) ≤ pool_size T →
  allocate_nodes T a l = Ret (a', ps) →
  clear T a' = set_resident_tail 0 a'
  ∧ recycle_tail (clear T a') = recycle_tail a
  ∧ (∀ k, k < pool_size T → recycle_mem (clear T a') k = recycle_mem a k).
Proof.
  intros Hd Hr Ht Hpool Hrun.
  pose proof (pool_size_bound T) as Hbound.
  assert (Hlen : N.of_nat (length l) < 2 ^ 64).
  { assert ((2 ^ 31 : N) < 2 ^ 64) by done. lia. }
  destruct (allocate_nodes_resident_list T l a a' ps Hd Hr) as (_ & Hnew & Hrt & Hrm);
    [lia|done|].
  destruct (allocate_nodes_returns T l a Hd Hr) as (a1 & Hrun1 & Ht1 & _); [lia|].
  rewrite Hrun1 in Hrun. injection Hrun as -> _.
  rewrite clear_all_active; [split_and!; [done|done|by intros k _; rewrite <- Hrm]|].
  intros b Hb. rewrite Ht1, Ht in Hb.
  destruct (lookup_lt_is_Some_2 l (N.to_nat b)) as [index Hindex]; [lia|].
  destruct (Hnew _ _ Hindex) as (Hact & _).
  rewrite Ht, N.add_0_l, N2Nat.id in Hact. by rewrite Hact.
Qed.

Lemma clear_empty (a : SNodeAllocator) : resident_tail a = 0 → clear T a = a.
Proof.
  intros Ht. rewrite clear_all_active by (intros b; lia).
  destruct a. simpl in Ht. by subst.
Qed.

(** X8. After [clear] or [reset_meta] the next call of [allocate_node]
    takes slot 0 and returns [data_pool] itself, whatever the recycle list
    holds: the call reads neither the recycle list nor its counter and
    leaves both as they are. *)
Theorem allocate_node_after_clear (a : SNodeAllocator) (index : PhysicalIndexGroup) :
  data_pool a ≠ 0 → resident_pool a ≠ 0 →
  (∃ a1, allocate_node T (Some (clear T a)) index = Ret (a1, data_pool a)
         ∧ resident_tail a1 = 1
         ∧ recycle_tail a1 = recycle_tail (clear T a)
         ∧ recycle_mem a1 = recycle_mem (clear T a))
  ∧ (∃ a1, allocate_node T (Some (reset_meta a)) index = Ret (a1, data_pool a)
           ∧ resident_tail a1 = 1
           ∧ recycle_tail a1 = 0
           ∧ recycle_mem a1 = recycle_mem a).
Proof.
  intros Hd Hr. split.
  - destruct (clear_frame T a) as (Ht & Hd' & Hr' & _).
    destruct (allocate_node_returns T (clear T a) index)
      as (a1 & Hcall & Ht1 & Hrt & _ & _ & _ & Hrm & _); [congruence..|].
    exists a1. rewrite Hcall, Ht, Hd'. split_and!; [f_equal; f_equal; lia|..|done|done].
    by rewrite Ht1, Ht.
  - destruct (allocate_node_returns T (reset_meta a) index)
      as (a1 & Hcall & Ht1 & Hrt & _ & _ & _ & Hrm & _); [done..|].
    exists a1. rewrite Hcall. simpl. split_and!; [f_equal; f_equal; lia|done..].
Qed.

(** X9. A sweep of an empty resident list changes nothing, so a second
    sweep in a row is without effect. *)
Theorem clear_idempotent (a : SNodeAllocator) :
  clear T (clear T a) = clear T a
  ∧ (resident_tail a = 0 → clear T a = a).
Proof.
  split; [|apply clear_empty].
  apply clear_empty. by destruct (clear_frame T a).
Qed.
End SweepClaims.

(** * Further properties of the registry and the containers *)

Section RegistryMore.
Context `{Build}.
Variable T : NodeType.

(** A call through the registry that returns: the entry of [T] held an
    allocator, on which [allocate_node] returned, and now holds the
    allocator that call left. *)
Lemma Managers_allocate_node_Ret (ms ms1 : Managers) (index : PhysicalIndexGroup) (p : N) :
  Managers_allocate_node T ms index = Ret (ms1, p) →
  ∃ m a a', managers ms !! SNodeID T = Some m
    ∧ allocator m = Some a
    ∧ allocate_node T (Some a) index = Ret (a', p)
    ∧ managers ms1 = <[SNodeID T := {| allocator := Some a' |}]> (managers ms).
Proof.
  unfold Managers_allocate_node, Managers_get_allocator, get_manager, get_allocator.
  destruct (managers ms !! SNodeID T) as [m|]; [simpl|done].
  destruct (allocate_node T (allocator m) index) as [[a' q]| |] eqn:Hcall;
    [simpl|done..].
  intros [= <- <-].
  destruct (allocate_node_Ret_inv T _ _ _ _ Hcall) as (a & Ha & _).
  exists m, a, a'. rewrite Ha in Hcall. done.
Qed.

(** X10. [allocate_node] reached through the registry: with no manager
    registered for the node type, and with a manager whose allocator pointer
    is null, the call dereferences a null pointer; and when it returns, the
    entry of the node type holds the allocator the call left while the entry
    of every other node type is the one of before. *)
Theorem Managers_allocate_node_entries (ms : Managers) (index : PhysicalIndexGroup) :
  (managers ms !! SNodeID T = None → Managers_allocate_node T ms index = Fault)
  ∧ (∀ m, managers ms !! SNodeID T = Some m → allocator m = None →
          Managers_allocate_node T ms index = Fault)
  ∧ (∀ ms1 p, Managers_allocate_node T ms index = Ret (ms1, p) →
       (∃ m a a', managers ms !! SNodeID T = Some m
          ∧ allocator m = Some a
          ∧ allocate_node T (Some a) index = Ret (a', p)
          ∧ managers ms1 !! SNodeID T = Some {| allocator := Some a' |})
       ∧ ∀ id, id ≠ SNodeID T → managers ms1 !! id = managers ms !! id).
Proof.
  split_and!.
  - intros Hnone.
    unfold Managers_allocate_node, Managers_get_allocator, get_manager.
    by rewrite Hnone.
  - intros m Hm Hnull.
    unfold Managers_allocate_node, Managers_get_allocator, get_manager, get_allocator.
    rewrite Hm. simpl. by rewrite Hnull.
  - intros ms1 p Hcall.
    destruct (Managers_allocate_node_Ret ms ms1 index p Hcall)
      as (m & a & a' & Hm & Ha & Hret & Hms1).
    split.
    + exists m, a, a'. rewrite Hms1. split_and!; [done..|]. apply lookup_insert_eq.
    + intros id Hid. rewrite Hms1. by apply lookup_insert_ne.
Qed.

(** Two calls in a row through the registry for one node type return
    neighbouring slots of its pool, unless the resident counter wraps. *)
Lemma Managers_allocate_node_twice (ms ms1 ms2 : Managers) (m : SNodeManager)
    (a : SNodeAllocator) (index index' : PhysicalIndexGroup) (p1 p2 : N) :
  managers ms !! SNodeID T = Some m → allocator m = Some a →
  resident_tail a + 1 < 2 ^ 64 →
  Managers_allocate_node T ms index = Ret (ms1, p1) →
  Managers_allocate_node T ms1 index' = Ret (ms2, p2) →
  p1 ≠ 0 ∧ p2 = p1 + sizeof_data_type T.
Proof.
  intros Hm Ha Hfit Hcall1 Hcall2.
  destruct (Managers_allocate_node_Ret ms ms1 index p1 Hcall1)
    as (m' & a0 & a1 & Hm' & Ha' & Hret1 & Hms1).
  destruct (Managers_allocate_node_Ret ms1 ms2 index' p2 Hcall2)
    as (m1 & a1' & a2 & Hm1 & Ha1 & Hret2 & _).
  rewrite Hm in Hm'. injection Hm' as <-. rewrite Ha in Ha'. injection Ha' as <-.
  rewrite Hms1, lookup_insert_eq in Hm1. injection Hm1 as <-. simpl in Ha1.
  injection Ha1 as <-.
  destruct (allocate_node_Ret_inv T _ _ _ _ Hret1) as (? & [= <-] & Hd & Hr).
  destruct (allocate_node_returns T a index Hd Hr)
    as (b1 & Hb1 & Ht1 & _ & Hd1 & Hr1 & _).
  rewrite Hb1 in Hret1. injection Hret1 as <- <-.
  rewrite wrap64_small in Ht1 by done.
  destruct (allocate_node_returns T b1 index') as (b2 & Hb2 & _); [congruence..|].
  rewrite Hb2 in Hret2. injection Hret2 as _ <-.
  rewrite Hd1, Ht1. split; lia.
Qed.
End RegistryMore.

Section ContainersMore.
Context `{Build}.

(** X12. [hashed::activate] only ever adds: a call that returns leaves
    every entry of the map that was there as it was, leaves the entries of
    all other indices as they were, and has the index activated in the map.
    With the index already in the map, map and registry are unchanged; else
    the map has grown by this one entry. *)
Theorem hashed_activate_grows (T : NodeType) (ms ms1 : Managers) (h h1 : hashed)
    (i : Z) (index : PhysicalIndexGroup) :
  hashed_activate T ms h i index = Ret (ms1, h1) →
  (∀ j q, hashed_data h !! j = Some q → hashed_data h1 !! j = Some q)
  ∧ (∀ j, j ≠ i → hashed_data h1 !! j = hashed_data h !! j)
  ∧ is_Some (hashed_data h1 !! i)
  ∧ (is_Some (hashed_data h !! i) → ms1 = ms ∧ h1 = h)
  ∧ (hashed_data h !! i = None →
       size (hashed_data h1) = S (size (hashed_data h))).
Proof.
  unfold hashed_activate. destruct (hashed_data h !! i) as [q|] eqn:Hq.
  - intros [= <- <-]. split_and!; [done|done|by rewrite Hq|done|done].
  - destruct (Managers_allocate_node T ms index) as [[ms' q]| |]; [simpl|done..].
    intros [= <- <-]. simpl. split_and!.
    + intros j q' Hj. rewrite lookup_insert_ne; [done|]. intros <-. congruence.
    + intros j Hj. by apply lookup_insert_ne.
    + rewrite lookup_insert_eq. eauto.
    + by intros [? [=]].
    + intros _. by apply map_size_insert_None.
Qed.

(** X13. Two indices of a [hashed] that are activated one after the other,
    neither being in the map before, get neighbouring slots of the pool of
    the node type: the children are distinct and non-null. *)
Theorem hashed_activate_two_indices (T : NodeType) (ms ms1 ms2 : Managers)
    (m : SNodeManager) (a : SNodeAllocator) (h h1 h2 : hashed) (i j : Z)
    (index index' : PhysicalIndexGroup) :
  i ≠ j → hashed_data h !! i = None → hashed_data h !! j = None →
  managers ms !! SNodeID T = Some m → allocator m = Some a →
  resident_tail a + 1 < 2 ^ 64 →
  hashed_activate T ms h i index = Ret (ms1, h1) →
  hashed_activate T ms1 h1 j index' = Ret (ms2, h2) →
  hashed_look_up h2 i ≠ 0
  ∧ hashed_look_up h2 j = hashed_look_up h2 i + sizeof_data_type T
  ∧ size (hashed_data h2) = S (S (size (hashed_data h))).
Proof.
  intros Hij Hi Hj Hm Ha Hfit Hact1 Hact2.
  unfold hashed_activate in Hact1. rewrite Hi in Hact1.
  destruct (Managers_allocate_node T ms index) as [[ms' p1]| |] eqn:Hcall1;
    simplify_eq/=.
  unfold hashed_activate in Hact2. simpl in Hact2.
  rewrite lookup_insert_ne, Hj in Hact2 by done.
  destruct (Managers_allocate_node T ms1 index') as [[ms' p2]| |] eqn:Hcall2;
    simplify_eq/=.
  destruct (Managers_allocate_node_twice T ms ms1 ms2 m a index index' p1 p2)
    as [Hnz Hadj]; [done..|].
  unfold hashed_look_up. simpl.
  rewrite lookup_insert_eq, lookup_insert_ne, lookup_insert_eq by done.
  split_and!; [done..|].
  rewrite !map_size_insert_None; [done|done|].
  by rewrite lookup_insert_ne.
Qed.
End ContainersMore.

Section PointerMore.
Context `{Build}.

Lemma pointer_activate_body_lock T ms p index (l : Z) :
  pointer_activate_body T ms {| pointer_data := pointer_data p; lock := l |} index
  = '(ms1, p1) ← pointer_activate_body T ms p index;
    Ret (ms1, {| pointer_data := pointer_data p1; lock := l |}).
Proof.
  unfold pointer_activate_body. simpl.
  destruct (pointer_data p =? 0); [|done].
  by destruct (Managers_allocate_node T ms index) as [[ms1 d]| |].
Qed.

(** [pointer::activate] run by one thread, in either build. *)
Lemma pointer_activate_run fuel tid T ms p i index :
  pointer_activate (S (S fuel)) tid T ms p i index
  = Some ('(ms1, p1) ← pointer_activate_body T ms p index;
          Ret (ms1, {| pointer_data := pointer_data p1;
                       lock := if CUDA_ARCH then 0%Z else lock p1 |})).
Proof.
  destruct CUDA_ARCH eqn:Hdev.
  - rewrite pointer_activate_device, spin_two by done. simpl.
    rewrite pointer_activate_body_lock.
    by destruct (pointer_activate_body T ms p index) as [[ms1 p1]| |].
  - unfold pointer_activate. rewrite Hdev. f_equal.
    destruct (pointer_activate_body T ms p index) as [[ms1 [d l]]| |]; done.
Qed.

Lemma pointer_activate_null fuel tid T ms p i index ms1 p1 :
  pointer_data p = 0 →
  pointer_activate (S (S fuel)) tid T ms p i index = Some (Ret (ms1, p1)) →
  Managers_allocate_node T ms index = Ret (ms1, pointer_data p1).
Proof.
  intros Hnull. rewrite pointer_activate_run. unfold pointer_activate_body.
  rewrite Hnull. simpl.
  destruct (Managers_allocate_node T ms index) as [[ms' d]| |]; [simpl|done..].
  by intros [= <- <-].
Qed.

(** X11. Two [pointer] containers of one node type, both without child,
    that are activated one after the other get neighbouring slots of the pool
    they share: the two children are distinct and non-null. *)
Theorem pointer_activate_two_instances (T : NodeType) (ms ms1 ms2 : Managers)
    (m : SNodeManager) (a : SNodeAllocator) (p p1 q q1 : pointer)
    (fuel : nat) (tid tid' i i' : Z) (index index' : PhysicalIndexGroup) :
  pointer_data p = 0 → pointer_data q = 0 →
  managers ms !! SNodeID T = Some m → allocator m = Some a →
  resident_tail a + 1 < 2 ^ 64 →
  pointer_activate (S (S fuel)) tid T ms p i index = Some (Ret (ms1, p1)) →
  pointer_activate (S (S fuel)) tid' T ms1 q i' index' = Some (Ret (ms2, q1)) →
  pointer_look_up p1 i ≠ 0
  ∧ pointer_look_up q1 i' = pointer_look_up p1 i + sizeof_data_type T.
Proof.
  intros Hp Hq Hm Ha Hfit Hact1 Hact2.
  apply pointer_activate_null in Hact1; [|done].
  apply pointer_activate_null in Hact2; [|done].
  by apply (Managers_allocate_node_twice T ms ms1 ms2 m a index index').
Qed.

(** X14. [pointer::activate] run by one thread of the device build: for
    every thread index and every value of [lock], the spin loop is left
    within two iterations, the registry and the child are those the body of
    the host build computes, and [lock] is 0 at the end. The host build runs
    the body alone and does not write [lock]. *)
Theorem pointer_activate_device_as_host (fuel : nat) (tid : Z) (T : NodeType)
    (ms : Managers) (p : pointer) (i : Z) (index : PhysicalIndexGroup) :
  (CUDA_ARCH = true →
     pointer_activate (S (S fuel)) tid T ms p i index
     = Some ('(ms1, p1) ← pointer_activate_body T ms p index;
             Ret (ms1, {| pointer_data := pointer_data p1; lock := 0 |})))
  ∧ (CUDA_ARCH = false →
       pointer_activate fuel tid T ms p i index
       = Some (pointer_activate_body T ms p index)
       ∧ ∀ ms1 p1, pointer_activate_body T ms p index = Ret (ms1, p1) →
                   lock p1 = lock p).
Proof.
  split.
  - intros Hdev. rewrite pointer_activate_run. by rewrite Hdev.
  - intros Hhost. unfold pointer_activate. rewrite Hhost. split; [done|].
    intros ms1 p1 Hbody. by apply pointer_activate_body_nonnull in Hbody as [_ ?].
Qed.

(** X15. [pointer::activate] on a container that has a child allocates
    nothing and keeps the child: the call returns with the registry and
    [data] as they were. *)
Theorem pointer_activate_keeps_child (fuel : nat) (tid : Z) (T : NodeType)
    (ms : Managers) (p : pointer) (i : Z) (index : PhysicalIndexGroup) :
  pointer_data p ≠ 0 →
  pointer_activate (S (S fuel)) tid T ms p i index
  = Some (Ret (ms, {| pointer_data := pointer_data p;
                      lock := if CUDA_ARCH then 0%Z else lock p |})).
Proof.
  intros Hnz. rewrite pointer_activate_run.
  by rewrite pointer_activate_body_again.
Qed.

(** X16. The loop [while (!atomicCAS(&lock, 0, 1));] does not wait for the
    lock to be released: reading a nonzero [lock] it is left at once with
    [lock] unchanged; reading 0 it stores 1 and is left at the next
    [atomicCAS]. It is never left with [lock] at 0 and never runs a third
    iteration. *)
Theorem spin_never_waits (fuel : nat) (l : Z) :
  (l ≠ 0%Z → spin (S fuel) l = Some l)
  ∧ spin (S (S fuel)) 0 = Some 1%Z
  ∧ spin 1 0 = None
  ∧ (∀ l', spin fuel l = Some l' → l' ≠ 0%Z ∧ l' = if (l =? 0)%Z then 1%Z else l).
Proof.
  split_and!.
  - intros Hl. simpl. unfold atomicCAS.
    by destruct (Z.eqb_spec l 0).
  - apply spin_two.
  - done.
  - intros l'. destruct fuel as [|[|fuel]].
    + done.
    + simpl. unfold atomicCAS. destruct (Z.eqb_spec l 0) as [->|Hl]; [done|].
      intros [= <-]. done.
    + rewrite spin_two. destruct (Z.eqb_spec l 0) as [->|Hl]; intros [= <-]; done.
Qed.
End PointerMore.

Section DynamicMore.
Context `{Build}.

Lemma wrap_int_small (x : Z) : (- 2 ^ 31 ≤ x < 2 ^ 31)%Z → wrap_int x = x.
Proof. intros Hx. unfold wrap_int. rewrite Z.mod_small; lia. Qed.

(** X17. [look_up] of a [dynamic] and of an [indirect] in a build with
    [TLANG_HOST]: [n] becomes the larger of [n] and [i + 1], so [get_n] does
    not decrease and exceeds the index looked up; [n] is not compared with
    [max_n], and an index at or beyond [max_n] raises [get_n] above
    [get_max_n]. In a build without [TLANG_HOST] the container is left as it
    is. *)
Theorem look_up_raises_n (i : Z) :
  (∀ d : dynamic,
     let d' := (dynamic_look_up d i).1 in
     (dynamic_get_n d ≤ dynamic_get_n d')%Z
     ∧ dynamic_get_max_n d' = dynamic_get_max_n d
     ∧ (TLANG_HOST = true → (- 2 ^ 31 ≤ i + 1 < 2 ^ 31)%Z →
          dynamic_get_n d' = Z.max (dynamic_get_n d) (i + 1)
          ∧ (dynamic_get_max_n d ≤ i → dynamic_get_max_n d' < dynamic_get_n d')%Z)
     ∧ (TLANG_HOST = false → d' = d))
  ∧ (∀ d : indirect,
       let d' := (indirect_look_up d i).1 in
       (indirect_get_n d ≤ indirect_get_n d')%Z
       ∧ indirect_get_max_n d' = indirect_get_max_n d
       ∧ (TLANG_HOST = true → (- 2 ^ 31 ≤ i + 1 < 2 ^ 31)%Z →
            indirect_get_n d' = Z.max (indirect_get_n d) (i + 1)
            ∧ (indirect_get_max_n d ≤ i → indirect_get_max_n d' < indirect_get_n d')%Z)
       ∧ (TLANG_HOST = false → d' = d)).
Proof.
  split; intros d; cbv zeta.
  - unfold dynamic_look_up, dynamic_get_n, dynamic_get_max_n.
    destruct TLANG_HOST; simpl.
    + split_and!; [lia|done| |done].
      intros _ Hi. rewrite wrap_int_small by done. split; lia.
    + split_and!; [lia|done|done|done].
  - unfold indirect_look_up, indirect_get_n, indirect_get_max_n.
    destruct TLANG_HOST; simpl.
    + split_and!; [lia|done| |done].
      intros _ Hi. rewrite wrap_int_small by done. split; lia.
    + split_and!; [lia|done|done|done].
Qed.

Lemma dynamic_appends_cons {A} (d : dynamic) (data : Z → A) (t : A) (ts : list A) :
  dynamic_appends d data (t :: ts)
  = dynamic_appends (dynamic_set_n (wrap_int (dynamic_n d + 1)) d)
      (<[dynamic_n d := t]> data) ts.
Proof. done. Qed.

(** X18. [append] called for the elements of a list on a [dynamic], the
    elements fitting into the array: with [n] not negative and [n] plus the
    length of the list at most [max_n], [n] grows by the length of the list,
    element [j] of the list is in [data[n + j]], and the other cells of
    [data] are as before. *)
Theorem dynamic_appends_stores {A} (ts : list A) (d : dynamic) (data : Z → A) :
  (0 ≤ dynamic_n d)%Z →
  (dynamic_n d + Z.of_nat (length ts) ≤ dynamic_max_n d)%Z →
  (dynamic_max_n d < 2 ^ 31)%Z →
  let '(d', data') := dynamic_appends d data ts in
  dynamic_get_n d' = (dynamic_n d + Z.of_nat (length ts))%Z
  ∧ dynamic_get_max_n d' = dynamic_get_max_n d
  ∧ (∀ (j : nat) t, ts !! j = Some t → data' (dynamic_n d + Z.of_nat j)%Z = t)
  ∧ (∀ k, (k < dynamic_n d ∨ dynamic_n d + Z.of_nat (length ts) ≤ k)%Z →
          data' k = data k).
Proof.
  revert d data. induction ts as [|t ts IH]; intros d data Hn Hfit Hint.
  - simpl. split_and!; [unfold dynamic_get_n; lia|done| |done]. by intros j t [=].
  - rewrite dynamic_appends_cons. simpl in Hfit. rewrite wrap_int_small by lia.
    specialize (IH (dynamic_set_n (dynamic_n d + 1) d) (<[dynamic_n d := t]> data)).
    destruct (dynamic_appends _ _ ts) as [d' data'].
    simpl in IH. destruct IH as (Hn' & Hmax & Hnew & Hold); [lia..|].
    split_and!.
    + rewrite Hn'. simpl. lia.
    + done.
    + intros [|j] t' Hj; simpl in Hj.
      * injection Hj as <-.
        replace (dynamic_n d + Z.of_nat 0)%Z with (dynamic_n d) by lia.
        rewrite Hold by lia. apply fn_lookup_insert.
      * replace (dynamic_n d + Z.of_nat (S j))%Z
          with (dynamic_n d + 1 + Z.of_nat j)%Z by lia.
        by apply Hnew.
    + intros k Hk. simpl in Hk. rewrite Hold by lia.
      apply fn_lookup_insert_ne. lia.
Qed.
End DynamicMore.

Section InterfaceMore.
Context `{Build}.

Lemma pointer_activate_data fuel tid T ms p i index ms1 p1 :
  pointer_activate fuel tid T ms p i index = Some (Ret (ms1, p1)) →
  pointer_data p ≠ 0 → pointer_data p1 = pointer_data p.
Proof.
  intros Hact Hnz. destruct CUDA_ARCH eqn:Hdev.
  - rewrite pointer_activate_device in Hact by done.
    destruct (spin fuel (lock p)) as [l|]; [simpl in Hact|done].
    rewrite pointer_activate_body_again in Hact by done. simpl in Hact.
    by injection Hact as _ <-.
  - unfold pointer_activate in Hact. rewrite Hdev in Hact.
    rewrite pointer_activate_body_again in Hact by done.
    by injection Hact as _ <-.
Qed.

(** X19. Activation never takes a child away or moves it: whatever the
    container, if [look_up] of an index gave a non-null child before a call
    of [activate] that returns, it gives the same child after it. *)
Theorem activate_keeps_children (fuel : nat) (tid : Z) (ms ms1 : Managers)
    (c c1 c' : container) (i j : Z) (index : PhysicalIndexGroup) (p : N) :
  activate fuel tid ms c i index = Called (Some (Ret (ms1, c1))) →
  look_up c j = Called (c', p) → p ≠ 0 →
  ∃ c1', look_up c1 j = Called (c1', p).
Proof.
  intros Hact Hlook Hnz. destruct c as [r|d|T q|T h|d|d]; simpl in Hact, Hlook.
  - injection Hact as <- <-. eauto.
  - injection Hact as <- <-. eauto.
  - injection Hlook as <- <-.
    destruct (pointer_activate fuel tid T ms q i index) as [[[ms' q']| |]|] eqn:Hq;
      simplify_eq/=.
    eexists. f_equal. f_equal.
    by apply (pointer_activate_data fuel tid T ms q i index ms1).
  - injection Hlook as <- <-.
    destruct (hashed_activate T ms h i index) as [[ms' h']| |] eqn:Hh;
      simplify_eq/=.
    eexists. f_equal. f_equal.
    unfold hashed_look_up in *.
    destruct (hashed_data h !! j) as [q|] eqn:Hq; [|done].
    unfold hashed_activate in Hh.
    destruct (hashed_data h !! i) as [q'|] eqn:Hi.
    + injection Hh as <- <-. by rewrite Hq.
    + destruct (Managers_allocate_node T ms index) as [[ms' q']| |];
        simplify_eq/=.
      rewrite lookup_insert_ne; [by rewrite Hq|]. intros <-. congruence.
  - injection Hact as <- <-. eauto.
  - done.
Qed.
End InterfaceMore.

(** ** The order of the blocks of a sweep *)

Section SweepOrder.
Variable T : NodeType.


End SweepOrder.

(** * The further properties at concrete pools and containers *)

Lemma allocate_node_frame_witness :
  resident_tail four_resident < pool_size T2
  ∧ ∃ a' p, allocate_node (H := host_build) T2 (Some four_resident) (coords 9) = Ret (a', p)
    ∧ resident_mem a' 2 = resident_mem four_resident 2
    ∧ data_mem a' 7 = data_mem four_resident 7
    ∧ recycle_tail a' = 0.
Proof.
  split; [done|].
  destruct (allocate_node (H := host_build) T2 (Some four_resident) (coords 9))
    as [[a' p]| |] eqn:Hcall; [|by vm_compute in Hcall..].
  exists a', p.
  destruct (allocate_node_frame (H := host_build) T2 four_resident a' (coords 9) p)
    as (Hm & Hd & Ht & _); [done..|].
  split_and!; [done| | |exact Ht].
  - apply Hm; by vm_compute.
  - apply Hd; [done|]. left. by vm_compute.
Defined.

Lemma allocate_nodes_keep_records_witness :
  ∃ a' ps, allocate_nodes (H := host_build) T2 fresh2 [coords 5; coords 6] = Ret (a', ps)
    ∧ active (resident_mem a' 0) = 1%Z
    ∧ ps !! 0%nat = Some (ptr (resident_mem a' 0))
    ∧ indices (resident_mem a' 0) 0%nat = 5%Z.
Proof.
  destruct (allocate_nodes (H := host_build) T2 fresh2 [coords 5; coords 6])
    as [[a' ps]| |] eqn:Hrun; [|by vm_compute in Hrun..].
  exists a', ps.
  destruct (allocate_nodes_keep_records (H := host_build) T2
              [coords 5; coords 6] fresh2 a' ps) as (Hnew & _); [done..|].
  destruct (Hnew 0%nat (coords 5) eq_refl) as (Ha & Hp & Hi).
  split_and!; [done|exact Ha|exact Hp|].
  apply (Hi 0%nat). simpl. lia.
Defined.


Lemma clear_data_words_witness :
  data_mem (clear T2 four_inactive) 3 = 0%Z
  ∧ data_mem (clear T2 four_inactive) 2 = data_mem four_inactive 2.
Proof.
  destruct (clear_data_words T2 four_inactive) as [Hzero Hkeep]. split.
  - apply (Hzero 1); by vm_compute.
  - apply Hkeep. intros b Hb _. change (resident_tail four_inactive) with 4 in Hb.
    assert (Hcases : b = 0 ∨ b = 1 ∨ b = 2 ∨ b = 3) by lia.
    destruct Hcases as [-> | [-> | [-> | ->]]]; done.
Defined.

Lemma allocate_nodes_then_clear_witness :
  ∃ a' ps, allocate_nodes (H := host_build) T2 fresh2 [coords 5; coords 6] = Ret (a', ps)
    ∧ resident_tail a' = 2
    ∧ recycle_tail (clear T2 a') = 0.
Proof.
  destruct (allocate_nodes (H := host_build) T2 fresh2 [coords 5; coords 6])
    as [[a' ps]| |] eqn:Hrun; [|by vm_compute in Hrun..].
  exists a', ps.
  destruct (allocate_nodes_then_clear (H := host_build) T2
              [coords 5; coords 6] fresh2 a' ps) as (_ & Ht & _); [done..|].
  split_and!; [done| |exact Ht].
  vm_compute in Hrun. by injection Hrun as <- _.
Defined.

Lemma allocate_node_after_clear_witness :
  data_pool four_inactive ≠ 0 ∧ resident_pool four_inactive ≠ 0
  ∧ ∃ a1, allocate_node (H := host_build) T2 (Some (clear T2 four_inactive)) (coords 9)
          = Ret (a1, 4096)
       ∧ recycle_tail a1 = recycle_tail (clear T2 four_inactive).
Proof.
  split_and!; [done..|].
  destruct (allocate_node_after_clear (H := host_build) T2 four_inactive (coords 9))
    as [(a1 & Hcall & _ & Hrt & _) _]; [done..|].
  exists a1. split; [exact Hcall|exact Hrt].
Defined.

Lemma clear_idempotent_witness :
  resident_tail fresh2 = 0 ∧ clear T2 fresh2 = fresh2
  ∧ clear T2 (clear T2 four_inactive) = clear T2 four_inactive.
Proof.
  destruct (clear_idempotent T2 fresh2) as [_ Hempty].
  destruct (clear_idempotent T2 four_inactive) as [Htwice _].
  split_and!; [done|by apply Hempty|exact Htwice].
Defined.

Lemma Managers_allocate_node_entries_witness :
  Managers_allocate_node (H := host_build) T2 {| managers := ∅ |} (coords 0) = Fault
  ∧ Managers_allocate_node (H := host_build) T2
      {| managers := {[ 3%Z := {| allocator := None |} ]} |} (coords 0) = Fault
  ∧ ∃ ms1 p, Managers_allocate_node (H := host_build) T2 registry2 (coords 0)
             = Ret (ms1, p)
       ∧ managers ms1 !! 1%Z = managers registry2 !! 1%Z.
Proof.
  split_and!.
  - by apply (Managers_allocate_node_entries (H := host_build) T2).
  - destruct (Managers_allocate_node_entries (H := host_build) T2
                {| managers := {[ 3%Z := {| allocator := None |} ]} |} (coords 0))
      as (_ & Hnull & _).
    by apply (Hnull {| allocator := None |}).
  - destruct (Managers_allocate_node (H := host_build) T2 registry2 (coords 0))
      as [[ms1 p]| |] eqn:Hcall; [|by vm_compute in Hcall..].
    exists ms1, p. split; [done|].
    destruct (Managers_allocate_node_entries (H := host_build) T2 registry2 (coords 0))
      as (_ & _ & Hret).
    destruct (Hret ms1 p Hcall) as [_ Hother]. by apply Hother.
Defined.

Lemma pointer_activate_two_instances_witness :
  ∃ ms1 p1 ms2 q1,
    pointer_activate (H := device_build) 2 5 T2 registry2
      {| pointer_data := 0; lock := 0 |} 0 (coords 1) = Some (Ret (ms1, p1))
    ∧ pointer_activate (H := device_build) 2 6 T2 ms1
        {| pointer_data := 0; lock := 0 |} 0 (coords 2) = Some (Ret (ms2, q1))
    ∧ pointer_look_up p1 0 ≠ 0
    ∧ pointer_look_up q1 0 = pointer_look_up p1 0 + 8.
Proof.
  destruct (pointer_activate (H := device_build) 2 5 T2 registry2
              {| pointer_data := 0; lock := 0 |} 0 (coords 1))
    as [[[ms1 p1]| |]|] eqn:Hp; [|by vm_compute in Hp..].
  destruct (pointer_activate (H := device_build) 2 6 T2 ms1
              {| pointer_data := 0; lock := 0 |} 0 (coords 2))
    as [[[ms2 q1]| |]|] eqn:Hq.
  - exists ms1, p1, ms2, q1. split_and!; [done..| |];
      by apply (pointer_activate_two_instances (H := device_build) T2
                  registry2 ms1 ms2 {| allocator := Some fresh2 |} fresh2
                  {| pointer_data := 0; lock := 0 |} p1
                  {| pointer_data := 0; lock := 0 |} q1 0 5 6 0 0 (coords 1) (coords 2)).
  - vm_compute in Hp. injection Hp as <- <-. by vm_compute in Hq.
  - vm_compute in Hp. injection Hp as <- <-. by vm_compute in Hq.
  - vm_compute in Hp. injection Hp as <- <-. by vm_compute in Hq.
Defined.

Lemma hashed_activate_grows_witness :
  ∃ ms1 h1, hashed_activate (H := host_build) T2 registry2 hashed_ctor 5 (coords 5)
            = Ret (ms1, h1)
    ∧ size (hashed_data h1) = 1%nat
    ∧ is_Some (hashed_data h1 !! 5%Z)
    ∧ hashed_data h1 !! 6%Z = None.
Proof.
  destruct (hashed_activate (H := host_build) T2 registry2 hashed_ctor 5 (coords 5))
    as [[ms1 h1]| |] eqn:Hact; [|by vm_compute in Hact..].
  exists ms1, h1.
  destruct (hashed_activate_grows (H := host_build) T2 registry2 ms1 hashed_ctor h1 5
              (coords 5) Hact) as (_ & Hother & Hin & _ & Hsize).
  split_and!; [done|by apply Hsize|exact Hin|].
  by rewrite Hother.
Defined.

Lemma hashed_activate_two_indices_witness :
  ∃ ms1 h1 ms2 h2,
    hashed_activate (H := host_build) T2 registry2 hashed_ctor 5 (coords 5)
    = Ret (ms1, h1)
    ∧ hashed_activate (H := host_build) T2 ms1 h1 9 (coords 9) = Ret (ms2, h2)
    ∧ hashed_look_up h2 5 ≠ 0
    ∧ hashed_look_up h2 9 = hashed_look_up h2 5 + 8.
Proof.
  destruct (hashed_activate (H := host_build) T2 registry2 hashed_ctor 5 (coords 5))
    as [[ms1 h1]| |] eqn:Hact1; [|by vm_compute in Hact1..].
  destruct (hashed_activate (H := host_build) T2 ms1 h1 9 (coords 9))
    as [[ms2 h2]| |] eqn:Hact2.
  - exists ms1, h1, ms2, h2.
    destruct (hashed_activate_two_indices (H := host_build) T2 registry2 ms1 ms2
                {| allocator := Some fresh2 |} fresh2 hashed_ctor h1 h2 5 9
                (coords 5) (coords 9)) as (Hnz & Hadj & _); done.
  - vm_compute in Hact1. injection Hact1 as <- <-. by vm_compute in Hact2.
  - vm_compute in Hact1. injection Hact1 as <- <-. by vm_compute in Hact2.
Defined.

Lemma pointer_activate_device_as_host_witness :
  pointer_activate (H := device_build) 2 37 T2 registry2
    {| pointer_data := 0; lock := 1 |} 0 (coords 5)
  = Some ('(ms1, p1) ← pointer_activate_body (H := device_build) T2 registry2
                         {| pointer_data := 0; lock := 1 |} (coords 5);
          Ret (ms1, {| pointer_data := pointer_data p1; lock := 0 |})).
Proof.
  by apply (pointer_activate_device_as_host (H := device_build) 0 37 T2 registry2
              {| pointer_data := 0; lock := 1 |} 0 (coords 5)).
Defined.

Lemma pointer_activate_keeps_child_witness :
  pointer_activate (H := host_build) 2 0 T2 registry2
    {| pointer_data := 4096; lock := 0 |} 0 (coords 5)
  = Some (Ret (registry2, {| pointer_data := 4096; lock := 0 |})).
Proof.
  by apply (pointer_activate_keeps_child (H := host_build) 0 0 T2 registry2
              {| pointer_data := 4096; lock := 0 |} 0 (coords 5)).
Defined.

Lemma spin_never_waits_witness :
  spin 1 1 = Some 1%Z ∧ spin 3 7 = Some 7%Z.
Proof.
  split.
  - by apply (spin_never_waits 0 1).
  - by apply (spin_never_waits 2 7).
Defined.

Lemma look_up_raises_n_witness :
  dynamic_get_n (dynamic_look_up (H := host_build) (dynamic_ctor 64 8 4) 9).1 = 10%Z
  ∧ (dynamic_get_max_n (dynamic_look_up (H := host_build) (dynamic_ctor 64 8 4) 9).1
     < dynamic_get_n (dynamic_look_up (H := host_build) (dynamic_ctor 64 8 4) 9).1)%Z
  ∧ (dynamic_look_up (H := device_build) (dynamic_ctor 64 8 4) 9).1 = dynamic_ctor 64 8 4.
Proof.
  destruct (look_up_raises_n (H := host_build) 9) as [Hdyn _].
  destruct (Hdyn (dynamic_ctor 64 8 4)) as (_ & _ & Hhost & _).
  destruct Hhost as [Hn Hmax]; [done|done|].
  destruct (look_up_raises_n (H := device_build) 9) as [Hdyn' _].
  destruct (Hdyn' (dynamic_ctor 64 8 4)) as (_ & _ & _ & Hdev).
  split_and!; [exact Hn|by apply Hmax|by apply Hdev].
Defined.

Lemma dynamic_appends_stores_witness :
  let '(d', data') := dynamic_appends (dynamic_ctor 64 4 8) (λ _, 0%Z) [7; 8; 9]%Z in
  dynamic_get_n d' = 3%Z ∧ data' 2%Z = 9%Z ∧ dynamic_get_max_n d' = 8%Z.
Proof.
  pose proof (dynamic_appends_stores [7; 8; 9]%Z (dynamic_ctor 64 4 8) (λ _, 0%Z))
    as Hstores.
  destruct (dynamic_appends (dynamic_ctor 64 4 8) (λ _, 0%Z) [7; 8; 9]%Z) as [d' data'].
  destruct Hstores as (Hn & Hmax & Hnew & _); [done..|].
  split_and!; [exact Hn|by apply (Hnew 2%nat)|exact Hmax].
Defined.

Lemma activate_keeps_children_witness :
  ∃ ms1 c1 c1',
    activate (H := host_build) 2 0 registry2
      (Hashed T2 {| hashed_data := {[ 5%Z := 4096 ]} |}) 9 (coords 9)
    = Called (Some (Ret (ms1, c1)))
    ∧ look_up (H := host_build) c1 5 = Called (c1', 4096).
Proof.
  destruct (activate (H := host_build) 2 0 registry2
              (Hashed T2 {| hashed_data := {[ 5%Z := 4096 ]} |}) 9 (coords 9))
    as [|[[[ms1 c1]| |]|]] eqn:Hact; try (by vm_compute in Hact).
  destruct (activate_keeps_children (H := host_build) 2 0 registry2 ms1
              (Hashed T2 {| hashed_data := {[ 5%Z := 4096 ]} |}) c1
              (Hashed T2 {| hashed_data := {[ 5%Z := 4096 ]} |}) 9 5 (coords 9) 4096)
    as [c1' Hlook]; [done..|].
  by exists ms1, c1, c1'.
Defined.

